(** * KubeOperation (src/kube.py): pod reallocation by soft affinity, then
      scale-to-zero-and-back, then a bounded convergence poll.

    The class is embedded as state-passing code over an abstract cluster
    API. Every call to the cluster and every [time.sleep] is recorded, with
    the response the cluster gave, in the list of events a computation emits,
    so that statements about "how many attempts" or "what was submitted" are
    statements about that list. The calls to the logger have no part in the
    control flow and are left out. *)

From Stdlib Require Import ZArith List String Bool Arith Lia.
From Equations Require Import Equations.
Import ListNotations.

Local Open Scope string_scope.
Local Open Scope Z_scope.
Local Open Scope list_scope.

Set Warnings "-register-all".

(** ** Python exceptions seen by the class *)

(** [ApiException] is the client library's error and carries [reason];
    [KubernetesException(e)] wraps an optional cause;
    [TypeError] is what iterating [None] raises;
    [OtherException] stands for any other [Exception] a client call may
    raise (connection errors and the like). All of them are subclasses of
    [Exception], so an [except Exception] clause catches every one. *)
Inductive exn : Type :=
| ApiException (reason : string)
| KubernetesDeploymentNotFoundException
| KubernetesException (cause : option exn)
| TypeError
| OtherException (name : string).

(** ** The deployment object, as far as the class reads or writes it *)

(** One entry of [match_expressions]: the dict literal of line 72. *)
Record MatchExpression := {
  key : string;
  operator : string;
  values : list string
}.

Record V1NodeSelectorTerm := {
  match_expressions : option (list MatchExpression);
  match_fields : option (list MatchExpression)
}.

Record V1PreferredSchedulingTerm := {
  preference : V1NodeSelectorTerm;
  weight : Z
}.

Record V1NodeAffinity := {
  preferred_during_scheduling_ignored_during_execution :
    option (list V1PreferredSchedulingTerm);
  required_during_scheduling_ignored_during_execution :
    option (list V1NodeSelectorTerm)
}.

(** [pod_affinity] and [pod_anti_affinity] are never built by the class; what
    the cluster returns in them is kept opaque. *)
Record V1Affinity := {
  node_affinity : option V1NodeAffinity;
  pod_affinity : option string;
  pod_anti_affinity : option string
}.

(** [spec.template.spec] *)
Record V1PodSpec := { affinity : option V1Affinity }.
(** [spec.template]; its field [spec] is named [pod_spec] here. *)
Record V1PodTemplateSpec := { pod_spec : V1PodSpec }.
Record V1DeploymentSpec := { replicas : Z; template : V1PodTemplateSpec }.
Record V1ObjectMeta := { generation : Z }.
(** [status.conditions] is [None] or a list of conditions; of a condition
    only [str(st.type)] is used. *)
Record V1DeploymentStatus := { conditions : option (list string) }.

Record V1Deployment := {
  metadata : V1ObjectMeta;
  spec : V1DeploymentSpec;
  status : V1DeploymentStatus
}.

(** [resource.spec.template.spec.affinity = a] *)
Definition set_affinity (a : V1Affinity) (d : V1Deployment) : V1Deployment :=
  {| metadata := metadata d;
     spec := {| replicas := replicas (spec d);
                template := {| pod_spec := {| affinity := Some a |} |} |};
     status := status d |}.

(** ** The cluster API client and the events of a run *)

(** The three client operations the class consumes, and the passing of time.
    Each takes the state of the world and returns the next one with its
    response: a read returns the object or raises, a patch or replace
    succeeds ([None]) or raises ([Some e]). *)
Record Cluster := {
  World : Type;
  read_namespaced_deployment :
    string -> string -> World -> World * (exn + V1Deployment);
  patch_namespaced_deployment :
    string -> string -> Z -> World -> World * option exn;
  replace_namespaced_deployment :
    string -> string -> V1Deployment -> World -> World * option exn;
  sleep : Z -> World -> World
}.

Inductive Event : Type :=
| Read (response : exn + V1Deployment)
| Patch (replica_number : Z) (failure : option exn)
| Replace (body : V1Deployment) (failure : option exn)
| Sleep (seconds : Z).

(** ** The instance *)

Record KubeOperation := {
  deploy_name : string;
  namespace : string;
  resource : V1Deployment;
  num_replicas_before : Z;
  current_version : Z
}.

Definition KUBE_ERROR_TYPE : string := "ReplicaFailure".
Definition KUBE_AVAILABLE_TYPE : string := "Available".
Definition KUBE_PROGRESSING_TYPE : string := "Progressing".

Definition with_resource (d : V1Deployment) (o : KubeOperation) : KubeOperation :=
  {| deploy_name := deploy_name o; namespace := namespace o;
     resource := d;
     num_replicas_before := num_replicas_before o;
     current_version := current_version o |}.

Definition with_current_version (v : Z) (o : KubeOperation) : KubeOperation :=
  {| deploy_name := deploy_name o; namespace := namespace o;
     resource := resource o;
     num_replicas_before := num_replicas_before o;
     current_version := v |}.

(** The return value of [reallocate_pod]: the dict
    [{'deployment_name': ..., 'status': ...}]. *)
Record Result := { deployment_name : string; status_flag : bool }.

(** ** Computations: state, emitted events, and a value or a raised exception *)

Inductive outcome (A : Type) : Type :=
| Return (a : A)
| Raise (e : exn).
Arguments Return {A} a.
Arguments Raise {A} e.

Section Kube.

Variable K : Cluster.

(** Whether [KubernetesDeploymentNotFoundException] is declared as a subclass
    of [KubernetesException]. Both classes come from [src/exceptions/kube.py],
    which is not part of the sources at hand. *)
Variable NotFound_is_KubernetesException : bool.

Record St := { self : KubeOperation; world : World K }.

Record Out (A : Type) := {
  final : St;
  emitted : list Event;
  result : outcome A
}.
Arguments final {A} o.
Arguments emitted {A} o.
Arguments result {A} o.

Definition M (A : Type) : Type := St -> Out A.

Definition ret {A} (a : A) : M A :=
  fun st => {| final := st; emitted := []; result := Return a |}.

Definition raise {A} (e : exn) : M A :=
  fun st => {| final := st; emitted := []; result := Raise e |}.

Definition bind {A B} (m : M A) (k : A -> M B) : M B :=
  fun st =>
    let o := m st in
    match result o with
    | Return a =>
        let o' := k a (final o) in
        {| final := final o';
           emitted := emitted o ++ emitted o';
           result := result o' |}
    | Raise e =>
        {| final := final o; emitted := emitted o; result := Raise e |}
    end.

Notation "x <- m ;; k" := (bind m (fun x => k))
  (at level 100, m at next level, right associativity).
Notation "m ;; k" := (bind m (fun _ => k))
  (at level 100, right associativity).

Definition get_self : M KubeOperation :=
  fun st => {| final := st; emitted := []; result := Return (self st) |}.

Definition update_self (f : KubeOperation -> KubeOperation) : M unit :=
  fun st => {| final := {| self := f (self st); world := world st |};
               emitted := []; result := Return tt |}.

(** [self.deploy_client.read_namespaced_deployment(name=..., namespace=...)],
    with its exception, if any, handed over as a value. *)
Definition client_read : M (exn + V1Deployment) :=
  fun st =>
    let '(w, r) := read_namespaced_deployment K
                     (deploy_name (self st)) (namespace (self st)) (world st) in
    {| final := {| self := self st; world := w |};
       emitted := [Read r]; result := Return r |}.

(** [self.deploy_client.patch_namespaced_deployment(..., body={'spec': {'replicas': n}})] *)
Definition client_patch (replica_number : Z) : M (option exn) :=
  fun st =>
    let '(w, r) := patch_namespaced_deployment K
                     (deploy_name (self st)) (namespace (self st))
                     replica_number (world st) in
    {| final := {| self := self st; world := w |};
       emitted := [Patch replica_number r]; result := Return r |}.

(** [self.deploy_client.replace_namespaced_deployment(..., body=self.resource)] *)
Definition client_replace : M (option exn) :=
  fun st =>
    let '(w, r) := replace_namespaced_deployment K
                     (deploy_name (self st)) (namespace (self st))
                     (resource (self st)) (world st) in
    {| final := {| self := self st; world := w |};
       emitted := [Replace (resource (self st)) r]; result := Return r |}.

Definition time_sleep (seconds : Z) : M unit :=
  fun st => {| final := {| self := self st; world := sleep K seconds (world st) |};
               emitted := [Sleep seconds]; result := Return tt |}.

(** ** The methods of [KubeOperation] *)

(** Lines 32-41. *)
Definition _get_deployment_info : M V1Deployment :=
  r <- client_read ;;
  match r with
  | inr deploy_obj => ret deploy_obj
  | inl (ApiException reason) =>
      if (reason =? "Not Found")%string
      then raise KubernetesDeploymentNotFoundException
      else raise (ApiException reason)
  | inl e => raise e
  end.


(** Lines 43-46. The comprehension over [None] raises [TypeError]. *)
Definition _get_deployment_status : M (list string) :=
  d <- _get_deployment_info ;;
  update_self (with_resource d) ;;
  match conditions (status d) with
  | Some l => ret l
  | None => raise TypeError
  end.

(** How many more attempts a retry loop can make once [tries] failures have
    been counted: the guard [tries >= 60] lets the 61st attempt happen. Used
    as the measure under which the loops terminate. *)
Definition attempts_left (tries : nat) : nat := (61 - tries)%nat.

Opaque attempts_left.

(** Lines 49-63: the loop, entered with [tries]. *)
Equations set_replica_loop (replica_number : Z) (tries : nat) : M unit
  by wf (attempts_left tries) lt :=
  set_replica_loop replica_number tries :=
    r <- client_patch replica_number ;;
    match r with
    | None => ret tt
    | Some e =>
        match le_lt_dec 60 tries with
        | left _ => raise (KubernetesException (Some e))
        | right _ =>
            time_sleep 1 ;;
            set_replica_loop replica_number (S tries)
        end
    end.
Next Obligation. change (61 - S tries < 61 - tries)%nat. lia. Qed.

(** Lines 48-67. *)
Definition _set_pod_replica (replica_number : Z) : M unit :=
  set_replica_loop replica_number 0%nat ;;
  patched <- _get_deployment_info ;;
  update_self (with_current_version (generation (metadata patched))) ;;
  update_self (with_resource patched).

(** Lines 70-83: the affinity object built from [values]. Arguments left
    out of a model constructor are [None]. *)
Definition build_affinity (values : list string) : V1Affinity :=
  let terms :=
    {| match_expressions :=
         Some [ {| key := "kubernetes.io/hostname";
                   operator := "In";
                   values := values |} ];
       match_fields := None |} in
  let node_affinity :=
    {| preferred_during_scheduling_ignored_during_execution :=
         Some [ {| preference := terms; weight := 1 |} ];
       required_during_scheduling_ignored_during_execution := None |} in
  {| node_affinity := Some node_affinity;
     pod_affinity := None;
     pod_anti_affinity := None |}.

(** Lines 85-104: the loop, entered with [tries]. *)
Equations update_affinity_loop (affinity : V1Affinity) (tries : nat) : M unit
  by wf (attempts_left tries) lt :=
  update_affinity_loop affinity tries :=
    update_self (fun o => with_resource (set_affinity affinity (resource o)) o) ;;
    r <- client_replace ;;
    match r with
    | None => ret tt
    | Some e =>
        match le_lt_dec 60 tries with
        | left _ =>
            o <- get_self ;;
            _set_pod_replica (num_replicas_before o) ;;
            raise (KubernetesException (Some e))
        | right _ =>
            time_sleep 1 ;;
            updated <- _get_deployment_info ;;
            update_self (with_current_version (generation (metadata updated))) ;;
            update_self (with_resource updated) ;;
            update_affinity_loop affinity (S tries)
        end
    end.
Next Obligation. change (61 - S tries < 61 - tries)%nat. lia. Qed.

(** Lines 69-106. *)
Definition _update_pod_affinity (values : list string) : M unit :=
  update_affinity_loop (build_affinity values) 0%nat ;;
  d <- _get_deployment_info ;;
  update_self (with_resource d).

(** [x in l] on a list of strings. *)
Definition py_in (x : string) (l : list string) : bool :=
  existsb (String.eqb x) l.

(** Lines 125-133: the loop, entered with [status_list] and [tries]. *)
Equations await_loop (status_list : list string) (tries : nat) : M unit
  by wf (attempts_left tries) lt :=
  await_loop status_list tries :=
    if py_in KUBE_ERROR_TYPE status_list then
      match le_lt_dec 60 tries with
      | left _ => raise (KubernetesException None)
      | right _ =>
          time_sleep 1 ;;
          status_list' <- _get_deployment_status ;;
          await_loop status_list' (S tries)
      end
    else ret tt.
Next Obligation. change (61 - S tries < 61 - tries)%nat. lia. Qed.

(** Lines 118-121: the scale-to-zero-and-back cycle. *)
Definition hard_mode : M unit :=
  _set_pod_replica 0 ;;
  time_sleep 1 ;;
  o <- get_self ;;
  _set_pod_replica (num_replicas_before o).

(** Lines 124-135: the convergence poll and the successful return. *)
Definition await_recover : M Result :=
  status_list <- _get_deployment_status ;;
  await_loop status_list 0%nat ;;
  o <- get_self ;;
  ret {| deployment_name := deploy_name o; status_flag := true |}.

(** Lines 110-121: the soft attempt, the settle delay, the status check and,
    when [ReplicaFailure] shows, the hard attempt. *)
Definition escalation (values : list string) : M unit :=
  _update_pod_affinity values ;;
  time_sleep 3 ;;
  status_list <- _get_deployment_status ;;
  if py_in KUBE_ERROR_TYPE status_list then hard_mode else ret tt.

(** Lines 110-135: the body of the [try]. *)
Definition reallocate_pod_try (values : list string) : M Result :=
  escalation values ;;
  await_recover.

(** [isinstance(e, KubernetesException)]: what [except KubernetesException]
    catches. *)
Definition isinstance_KubernetesException (e : exn) : bool :=
  match e with
  | KubernetesException _ => true
  | KubernetesDeploymentNotFoundException => NotFound_is_KubernetesException
  | _ => false
  end.

(** Lines 108-137. *)
Definition reallocate_pod (values : list string) : M Result :=
  fun st =>
    let o := reallocate_pod_try values st in
    match result o with
    | Return r => o
    | Raise e =>
        if isinstance_KubernetesException e
        then {| final := final o;
                emitted := emitted o;
                result := Return {| deployment_name := deploy_name (self (final o));
                                    status_flag := false |} |}
        else o
    end.

End Kube.

Arguments final {K A} o.
Arguments emitted {K A} o.
Arguments result {K A} o.
Arguments self {K} s.
Arguments world {K} s.

(** ** A scripted cluster, to run the methods on *)

(** Each operation answers with the next entry of its own script and, once
    the script is used up, with its default answer for ever. *)
Record Script := {
  read_script : list (exn + V1Deployment);
  read_default : exn + V1Deployment;
  patch_script : list (option exn);
  patch_default : option exn;
  replace_script : list (option exn);
  replace_default : option exn
}.

Definition scripted : Cluster :=
  {| World := Script;
     read_namespaced_deployment := fun _ _ w =>
       match read_script w with
       | [] => (w, read_default w)
       | r :: rs =>
           ({| read_script := rs; read_default := read_default w;
               patch_script := patch_script w; patch_default := patch_default w;
               replace_script := replace_script w; replace_default := replace_default w |}, r)
       end;
     patch_namespaced_deployment := fun _ _ _ w =>
       match patch_script w with
       | [] => (w, patch_default w)
       | r :: rs =>
           ({| read_script := read_script w; read_default := read_default w;
               patch_script := rs; patch_default := patch_default w;
               replace_script := replace_script w; replace_default := replace_default w |}, r)
       end;
     replace_namespaced_deployment := fun _ _ _ w =>
       match replace_script w with
       | [] => (w, replace_default w)
       | r :: rs =>
           ({| read_script := read_script w; read_default := read_default w;
               patch_script := patch_script w; patch_default := patch_default w;
               replace_script := rs; replace_default := replace_default w |}, r)
       end;
     sleep := fun _ w => w |}.

(** A deployment with the given replica count, generation and conditions,
    and no affinity. *)
Definition deployment (n g : Z) (conds : option (list string)) : V1Deployment :=
  {| metadata := {| generation := g |};
     spec := {| replicas := n;
                template := {| pod_spec := {| affinity := None |} |} |};
     status := {| conditions := conds |} |}.

Definition healthy : list string := [KUBE_AVAILABLE_TYPE; KUBE_PROGRESSING_TYPE].
Definition failing : list string :=
  [KUBE_AVAILABLE_TYPE; KUBE_PROGRESSING_TYPE; KUBE_ERROR_TYPE].

(** The instance built for deployment "api" with 3 replicas. *)
Definition api : KubeOperation :=
  {| deploy_name := "api"; namespace := "default";
     resource := deployment 3 1 (Some healthy);
     num_replicas_before := 3;
     current_version := 1 |}.

Definition start (w : Script) : St scripted := Build_St scripted api w.

(** Every call succeeds, and no error condition ever shows. *)
Definition calm : Script :=
  {| read_script := []; read_default := inr (deployment 3 2 (Some healthy));
     patch_script := []; patch_default := None;
     replace_script := []; replace_default := None |}.



(** Every patch and every replace is refused; reads succeed and show
    [ReplicaFailure]. *)
Definition stuck : Script :=
  {| read_script := []; read_default := inr (deployment 3 2 (Some failing));
     patch_script := []; patch_default := Some (ApiException "Conflict");
     replace_script := []; replace_default := Some (ApiException "Conflict") |}.

(** Every replace is refused; patches and reads succeed. *)
Definition replace_refused : Script :=
  {| read_script := []; read_default := inr (deployment 3 2 (Some healthy));
     patch_script := []; patch_default := None;
     replace_script := []; replace_default := Some (ApiException "Conflict") |}.

(** The first two patches are refused, the third is accepted. *)
Definition patch_third_time : Script :=
  {| read_script := []; read_default := inr (deployment 3 2 (Some healthy));
     patch_script := [Some (ApiException "Conflict");
                      Some (ApiException "Conflict")];
     patch_default := None;
     replace_script := []; replace_default := None |}.

(** The first replace is refused, and the read made before the retry fails
    with a server error. *)
Definition refetch_breaks : Script :=
  {| read_script := [inl (ApiException "Internal Server Error")];
     read_default := inr (deployment 3 2 (Some healthy));
     patch_script := []; patch_default := None;
     replace_script := [Some (ApiException "Conflict")];
     replace_default := None |}.


(** [ReplicaFailure] is absent from the first two reads and shows in every
    read after them. *)
Definition late_failure : Script :=
  {| read_script := [inr (deployment 3 2 (Some healthy));
                     inr (deployment 3 2 (Some healthy))];
     read_default := inr (deployment 3 2 (Some failing));
     patch_script := []; patch_default := None;
     replace_script := []; replace_default := None |}.

(** [ReplicaFailure] shows in the status read after the settle delay and in
    no other read. *)
Definition soft_fails : Script :=
  {| read_script := [inr (deployment 3 2 (Some healthy));
                     inr (deployment 3 2 (Some failing))];
     read_default := inr (deployment 3 4 (Some healthy));
     patch_script := []; patch_default := None;
     replace_script := []; replace_default := None |}.



(** The first replace is refused, and the read made before the retry is
    answered with "Not Found". *)
Definition refetch_not_found : Script :=
  {| read_script := [inl (ApiException "Not Found")];
     read_default := inr (deployment 3 2 (Some healthy));
     patch_script := []; patch_default := None;
     replace_script := [Some (ApiException "Conflict")];
     replace_default := None |}.

(** ** Reading the events of a run *)

(** What [_get_deployment_info] makes of the client's answer [r]
    (lines 36-41), and what [_get_deployment_status] then makes of it
    (lines 45-46). *)
Definition read_outcome (r : exn + V1Deployment) : outcome V1Deployment :=
  match r with
  | inr deploy_obj => Return deploy_obj
  | inl (ApiException reason) =>
      if (reason =? "Not Found")%string
      then Raise KubernetesDeploymentNotFoundException
      else Raise (ApiException reason)
  | inl e => Raise e
  end.

Definition status_outcome (r : exn + V1Deployment) : outcome (list string) :=
  match read_outcome r with
  | Return d =>
      match conditions (status d) with
      | Some l => Return l
      | None => Raise TypeError
      end
  | Raise e => Raise e
  end.

(** The answers to the patch calls of a run, in order; likewise their
    targets, the answers to and bodies of the replace calls, and the
    delays. *)
Definition patch_outcomes (tr : list Event) : list (option exn) :=
  flat_map (fun ev => match ev with Patch _ f => [f] | _ => [] end) tr.

Definition patch_targets (tr : list Event) : list Z :=
  flat_map (fun ev => match ev with Patch n _ => [n] | _ => [] end) tr.

Definition replace_outcomes (tr : list Event) : list (option exn) :=
  flat_map (fun ev => match ev with Replace _ f => [f] | _ => [] end) tr.

Definition replace_bodies (tr : list Event) : list V1Deployment :=
  flat_map (fun ev => match ev with Replace b _ => [b] | _ => [] end) tr.

Definition read_responses (tr : list Event) : list (exn + V1Deployment) :=
  flat_map (fun ev => match ev with Read r => [r] | _ => [] end) tr.

Definition delays (tr : list Event) : list Z :=
  flat_map (fun ev => match ev with Sleep s => [s] | _ => [] end) tr.

Definition failed (f : option exn) : bool :=
  match f with Some _ => true | None => false end.

(** A run of attempts of one call: each failure in [fails] is followed by a
    one-second delay and the next attempt; [last] is the answer to the final
    attempt. *)
Definition attempts (call : option exn -> Event) (fails : list exn)
    (last : option exn) : list Event :=
  flat_map (fun e => [call (Some e); Sleep 1]) fails ++ [call last].

(** The fields of the instance that identify the deployment and hold the
    replica count recorded at construction. *)
Definition same_handle (o o' : KubeOperation) : Prop :=
  deploy_name o' = deploy_name o
  /\ namespace o' = namespace o
  /\ num_replicas_before o' = num_replicas_before o.

(** The affinity a submitted object carries: [body.spec.template.spec.affinity]. *)
Definition affinity_of (d : V1Deployment) : option V1Affinity :=
  affinity (pod_spec (template (spec d))).

(** The events of the failed turns of the affinity loop: the replace that
    failed, the delay, and the snapshot read again. *)
Definition refreshes (rounds : list (V1Deployment * exn * V1Deployment)) : list Event :=
  flat_map (fun '(b, e, d) => [Replace b (Some e); Sleep 1; Read (inr d)]) rounds.

(** The events of the turns of the convergence poll: a one-second delay and
    the status read again. *)
Definition polling (polls : list (exn + V1Deployment)) : list Event :=
  flat_map (fun r => [Sleep 1; Read r]) polls.

(** The read [r] succeeded and shows [ReplicaFailure] among the conditions. *)
Definition shows_failure (r : exn + V1Deployment) : bool :=
  match status_outcome r with
  | Return l => py_in KUBE_ERROR_TYPE l
  | Raise _ => false
  end.

(** The read [r] succeeded and shows conditions without [ReplicaFailure]. *)
Definition shows_clear (r : exn + V1Deployment) : bool :=
  match status_outcome r with
  | Return l => negb (py_in KUBE_ERROR_TYPE l)
  | Raise _ => false
  end.


(** The events of a run that follow the three-second settle delay. *)
Fixpoint after_settle (tr : list Event) : list Event :=
  match tr with
  | [] => []
  | Sleep s :: rest => if s =? 3 then rest else after_settle rest
  | _ :: rest => after_settle rest
  end.

(** No event of [tr] is the three-second settle delay. *)
Definition no_settle (tr : list Event) : bool :=
  forallb (fun ev => match ev with Sleep s => negb (s =? 3) | _ => true end) tr.

(** The status fetched right after the settle delay shows [ReplicaFailure];
    it shows conditions without [ReplicaFailure]. *)
Definition failure_after_settle (tr : list Event) : bool :=
  match after_settle tr with
  | Read r :: _ => shows_failure r
  | _ => false
  end.

Definition clear_after_settle (tr : list Event) : bool :=
  match after_settle tr with
  | Read r :: _ => shows_clear r
  | _ => false
  end.

(** After the settle delay the replica setter was called with 0. *)
Definition is_patch_zero (ev : Event) : bool :=
  match ev with Patch n _ => n =? 0 | _ => false end.

Definition hard_started (tr : list Event) : bool :=
  existsb is_patch_zero (after_settle tr).

(** The error of a client read that failed right after a delay, if the run
    has one. *)
Fixpoint refetch_error (tr : list Event) : option exn :=
  match tr with
  | [] => None
  | Sleep _ :: (Read (inl e) :: _) => Some e
  | _ :: rest => refetch_error rest
  end.


(** The seconds slept in a run, all delays added up. *)
Definition total_delay (tr : list Event) : Z :=
  fold_right Z.add 0 (delays tr).

(** The targets of the patches the cluster accepted, in order. *)
Definition accepted_patches (tr : list Event) : list Z :=
  flat_map (fun ev => match ev with Patch n None => [n] | _ => [] end) tr.

(** The objects returned by the reads that directly follow a delay. *)
Fixpoint refetched (tr : list Event) : list V1Deployment :=
  match tr with
  | [] => []
  | Sleep _ :: (Read (inr d) :: rest) => d :: refetched rest
  | _ :: rest => refetched rest
  end.

(** Every patch is accepted at the second attempt, every replace at the
    second attempt, and [ReplicaFailure] shows after the soft attempt only. *)
Definition bumpy : Script :=
  {| read_script := [inr (deployment 3 2 (Some healthy));
                     inr (deployment 3 3 (Some healthy));
                     inr (deployment 3 3 (Some failing));
                     inr (deployment 0 4 (Some healthy));
                     inr (deployment 3 5 (Some healthy))];
     read_default := inr (deployment 3 5 (Some healthy));
     patch_script := [Some (ApiException "Conflict"); None;
                      Some (ApiException "Conflict"); None];
     patch_default := None;
     replace_script := [Some (ApiException "Conflict")];
     replace_default := None |}.



(** ** Basic facts about the methods *)

#[local] Arguments le_lt_dec : simpl never.

Section Facts.

Context (K : Cluster).

Lemma patch_outcomes_app t1 t2 :
  patch_outcomes (t1 ++ t2) = patch_outcomes t1 ++ patch_outcomes t2.
Proof. apply flat_map_app. Qed.

Lemma patch_targets_app t1 t2 :
  patch_targets (t1 ++ t2) = patch_targets t1 ++ patch_targets t2.
Proof. apply flat_map_app. Qed.

Lemma replace_outcomes_app t1 t2 :
  replace_outcomes (t1 ++ t2) = replace_outcomes t1 ++ replace_outcomes t2.
Proof. apply flat_map_app. Qed.

Lemma replace_bodies_app t1 t2 :
  replace_bodies (t1 ++ t2) = replace_bodies t1 ++ replace_bodies t2.
Proof. apply flat_map_app. Qed.

Lemma read_responses_app t1 t2 :
  read_responses (t1 ++ t2) = read_responses t1 ++ read_responses t2.
Proof. apply flat_map_app. Qed.

Lemma delays_app t1 t2 : delays (t1 ++ t2) = delays t1 ++ delays t2.
Proof. apply flat_map_app. Qed.

Lemma attempts_cons call e fails last :
  attempts call (e :: fails) last
  = call (Some e) :: Sleep 1 :: attempts call fails last.
Proof. reflexivity. Qed.

Lemma bind_Return {A B} (m : M K A) (k : A -> M K B) (st : St K) (a : A) :
  result (m st) = Return a ->
  bind K m k st
  = {| final := final (k a (final (m st)));
       emitted := emitted (m st) ++ emitted (k a (final (m st)));
       result := result (k a (final (m st))) |}.
Proof. intros H. unfold bind. rewrite H. reflexivity. Qed.

Lemma bind_Raise {A B} (m : M K A) (k : A -> M K B) (st : St K) (e : exn) :
  result (m st) = Raise e ->
  bind K m k st
  = {| final := final (m st); emitted := emitted (m st); result := Raise e |}.
Proof. intros H. unfold bind. rewrite H. reflexivity. Qed.

(** [_get_deployment_info] makes one read and leaves the instance alone. *)
Lemma get_deployment_info_run (st : St K) :
  exists w r,
    read_namespaced_deployment K (deploy_name (self st)) (namespace (self st))
      (world st) = (w, r)
    /\ _get_deployment_info K st
       = {| final := Build_St K (self st) w;
            emitted := [Read r];
            result := read_outcome r |}.
Proof.
  unfold _get_deployment_info, bind, client_read.
  destruct (read_namespaced_deployment K _ _ _) as [w r] eqn:E.
  exists w, r. split; [reflexivity|]. cbn.
  destruct r as [e|d]; cbn; [|reflexivity].
  destruct e; cbn; try reflexivity.
  destruct (reason =? "Not Found")%string; reflexivity.
Qed.

(** [_get_deployment_status] makes one read; it stores the object read. *)
Lemma get_deployment_status_run (st : St K) :
  exists w r,
    read_namespaced_deployment K (deploy_name (self st)) (namespace (self st))
      (world st) = (w, r)
    /\ emitted (_get_deployment_status K st) = [Read r]
    /\ result (_get_deployment_status K st) = status_outcome r
    /\ final (_get_deployment_status K st)
       = Build_St K (match read_outcome r with
                     | Return d => with_resource d (self st)
                     | Raise _ => self st
                     end) w.
Proof.
  destruct (get_deployment_info_run st) as (w & r & E & H).
  exists w, r. split; [exact E|].
  unfold _get_deployment_status, bind, status_outcome. rewrite H. cbn.
  destruct (read_outcome r) as [d|e]; cbn; [|auto].
  destruct (conditions (status d)); cbn; auto.
Qed.

(** One turn of the patch loop (lines 50-63). *)
Lemma set_replica_loop_step (n : Z) (tries : nat) (st : St K) :
  set_replica_loop K n tries st =
  let '(w, r) := patch_namespaced_deployment K (deploy_name (self st))
                   (namespace (self st)) n (world st) in
  match r with
  | None => {| final := Build_St K (self st) w;
               emitted := [Patch n None];
               result := Return tt |}
  | Some e =>
      if le_lt_dec 60 tries
      then {| final := Build_St K (self st) w;
              emitted := [Patch n (Some e)];
              result := Raise (KubernetesException (Some e)) |}
      else
        let o := set_replica_loop K n (S tries)
                   (Build_St K (self st) (sleep K 1 w)) in
        {| final := final o;
           emitted := Patch n (Some e) :: Sleep 1 :: emitted o;
           result := result o |}
  end.
Proof.
  rewrite set_replica_loop_equation_1. unfold bind, client_patch, time_sleep.
  destruct (patch_namespaced_deployment K _ _ _ _) as [w [e|]]; cbn;
    [|reflexivity].
  destruct (le_lt_dec 60 tries); reflexivity.
Qed.

(** The patch loop entered with [tries] failures counted and [k] retries
    left: some failures, each followed by a one-second delay, then a last
    attempt that either succeeds or, all [k] retries being spent, fails. *)
Lemma set_replica_loop_shape (n : Z) :
  forall (k tries : nat) (st : St K),
    (tries + k = 60)%nat ->
    exists fails last,
      emitted (set_replica_loop K n tries st) = attempts (Patch n) fails last
      /\ self (final (set_replica_loop K n tries st)) = self st
      /\ (List.length fails <= k)%nat
      /\ result (set_replica_loop K n tries st)
         = match last with
           | None => Return tt
           | Some e => Raise (KubernetesException (Some e))
           end
      /\ (failed last = true -> List.length fails = k).
Proof.
  induction k as [|k IH]; intros tries st Hk;
    rewrite set_replica_loop_step;
    destruct (patch_namespaced_deployment K _ _ _ _) as [w [e|]];
    try (exists [], None; cbn; repeat split; auto; try lia; discriminate).
  - destruct (le_lt_dec 60 tries); [|lia].
    exists [], (Some e). cbn. auto.
  - destruct (le_lt_dec 60 tries); [lia|]. cbn.
    match goal with |- context [set_replica_loop K n (S tries) ?s] =>
      destruct (IH (S tries) s ltac:(lia)) as (fails & last & He & Hs & Hl & Hr & Hf)
    end.
    exists (e :: fails), last. rewrite attempts_cons, He, Hr.
    repeat split; auto; cbn; try lia.
    intros Hx; specialize (Hf Hx); lia.
Qed.

(** [_set_pod_replica]: at most 61 attempts; after a success, one read. *)
Lemma set_pod_replica_shape (n : Z) (st : St K) :
  exists fails last,
    (List.length fails <= 60)%nat
    /\ match last with
       | Some e =>
           emitted (_set_pod_replica K n st) = attempts (Patch n) fails (Some e)
           /\ List.length fails = 60%nat
           /\ result (_set_pod_replica K n st)
              = Raise (KubernetesException (Some e))
           /\ self (final (_set_pod_replica K n st)) = self st
       | None =>
           exists r,
             emitted (_set_pod_replica K n st)
             = attempts (Patch n) fails None ++ [Read r]
             /\ result (_set_pod_replica K n st)
                = match read_outcome r with
                  | Return _ => Return tt
                  | Raise e => Raise e
                  end
             /\ self (final (_set_pod_replica K n st))
                = match read_outcome r with
                  | Return d =>
                      with_resource d
                        (with_current_version (generation (metadata d)) (self st))
                  | Raise _ => self st
                  end
       end.
Proof.
  destruct (set_replica_loop_shape n 60 0 st eq_refl)
    as (fails & last & He & Hs & Hl & Hr & Hf).
  exists fails, last. split; [exact Hl|].
  unfold _set_pod_replica.
  destruct last as [e|].
  - rewrite (bind_Raise _ _ _ _ Hr). cbn. auto.
  - rewrite (bind_Return _ _ _ _ Hr). cbn.
    destruct (get_deployment_info_run (final (set_replica_loop K n 0 st)))
      as (w & r & _ & Hi).
    exists r. unfold bind. rewrite Hi, He. cbn.
    destruct (read_outcome r); cbn; rewrite Hs; auto.
Qed.

Lemma same_handle_refl o : same_handle o o.
Proof. repeat split. Qed.

Lemma same_handle_trans o1 o2 o3 :
  same_handle o1 o2 -> same_handle o2 o3 -> same_handle o1 o3.
Proof. unfold same_handle. intuition congruence. Qed.

Lemma set_pod_replica_handle (n : Z) (st : St K) :
  same_handle (self st) (self (final (_set_pod_replica K n st))).
Proof.
  destruct (set_pod_replica_shape n st) as (fails & [e|] & _ & H).
  - destruct H as (_ & _ & _ & ->). apply same_handle_refl.
  - destruct H as (r & _ & _ & ->).
    destruct (read_outcome r); repeat split.
Qed.

Lemma get_deployment_status_handle (st : St K) :
  same_handle (self st) (self (final (_get_deployment_status K st))).
Proof.
  destruct (get_deployment_status_run st) as (w & r & _ & _ & _ & ->). cbn.
  destruct (read_outcome r); repeat split.
Qed.

(** One turn of the affinity loop (lines 86-104). *)
Lemma update_affinity_loop_step (a : V1Affinity) (tries : nat) (st : St K) :
  update_affinity_loop K a tries st =
  let o1 := with_resource (set_affinity a (resource (self st))) (self st) in
  let '(w, r) := replace_namespaced_deployment K (deploy_name (self st))
                   (namespace (self st)) (resource o1) (world st) in
  match r with
  | None => {| final := Build_St K o1 w;
               emitted := [Replace (resource o1) None];
               result := Return tt |}
  | Some e =>
      if le_lt_dec 60 tries
      then
        let o := _set_pod_replica K (num_replicas_before (self st))
                   (Build_St K o1 w) in
        {| final := final o;
           emitted := Replace (resource o1) (Some e) :: emitted o;
           result := match result o with
                     | Return _ => Raise (KubernetesException (Some e))
                     | Raise e' => Raise e'
                     end |}
      else
        let '(w', r') := read_namespaced_deployment K (deploy_name (self st))
                           (namespace (self st)) (sleep K 1 w) in
        match read_outcome r' with
        | Raise e' =>
            {| final := Build_St K o1 w';
               emitted := [Replace (resource o1) (Some e); Sleep 1; Read r'];
               result := Raise e' |}
        | Return updated =>
            let o := update_affinity_loop K a (S tries)
                       (Build_St K
                          (with_resource updated
                             (with_current_version
                                (generation (metadata updated)) o1)) w') in
            {| final := final o;
               emitted := Replace (resource o1) (Some e) :: Sleep 1
                          :: Read r' :: emitted o;
               result := result o |}
        end
  end.
Proof.
  rewrite update_affinity_loop_equation_1.
  unfold bind, update_self, client_replace, time_sleep, get_self. cbn.
  destruct (replace_namespaced_deployment K _ _ _ _) as [w [e|]]; cbn;
    [|reflexivity].
  destruct (le_lt_dec 60 tries); cbn.
  - destruct (result (_set_pod_replica K _ _)); cbn;
      rewrite ?app_nil_r; reflexivity.
  - match goal with |- context [_get_deployment_info K ?s] =>
      destruct (get_deployment_info_run s) as (w' & r' & E & Hi)
    end.
    cbn in E. rewrite E, Hi. cbn.
    destruct (read_outcome r'); reflexivity.
Qed.

Lemma read_outcome_Return r d : read_outcome r = Return d -> r = inr d.
Proof.
  destruct r as [e|d']; cbn.
  - destruct e; try discriminate.
    destruct (reason =? "Not Found")%string; discriminate.
  - congruence.
Qed.

Lemma same_handle_with_resource d o : same_handle o (with_resource d o).
Proof. repeat split. Qed.

Lemma same_handle_with_current_version v o :
  same_handle o (with_current_version v o).
Proof. repeat split. Qed.

(** The affinity loop entered with [tries] failures counted and [k] retries
    left. Every failed turn but the last is a replace, a one-second delay and
    a successful read; the loop then ends in one of three ways: the replace
    is accepted; the read after a failed replace fails and its error
    propagates; or the budget is spent, the replica setter is run with the
    recorded count, and an error is raised. Every object submitted carries
    the affinity [a]. *)
Lemma update_affinity_loop_shape (a : V1Affinity) :
  forall (k tries : nat) (st : St K),
    (tries + k = 60)%nat ->
    exists rounds b,
      affinity_of b = Some a
      /\ Forall (fun x => affinity_of (fst (fst x)) = Some a) rounds
      /\ (List.length rounds <= k)%nat
      /\ same_handle (self st) (self (final (update_affinity_loop K a tries st)))
      /\ ((emitted (update_affinity_loop K a tries st)
             = refreshes rounds ++ [Replace b None]
           /\ result (update_affinity_loop K a tries st) = Return tt)
          \/ (exists e r e',
                (List.length rounds < k)%nat
                /\ emitted (update_affinity_loop K a tries st)
                   = refreshes rounds ++ [Replace b (Some e); Sleep 1; Read r]
                /\ read_outcome r = Raise e'
                /\ result (update_affinity_loop K a tries st) = Raise e')
          \/ (exists e sx,
                List.length rounds = k
                /\ same_handle (self st) (self sx)
                /\ emitted (update_affinity_loop K a tries st)
                   = refreshes rounds
                     ++ Replace b (Some e)
                        :: emitted (_set_pod_replica K
                                      (num_replicas_before (self st)) sx)
                /\ result (update_affinity_loop K a tries st)
                   = match result (_set_pod_replica K
                                     (num_replicas_before (self st)) sx) with
                     | Return _ => Raise (KubernetesException (Some e))
                     | Raise e' => Raise e'
                     end)).
Proof.
  induction k as [|k IH]; intros tries st Hk;
    rewrite update_affinity_loop_step; cbn zeta;
    destruct (replace_namespaced_deployment K _ _ _ _) as [w [e|]];
    try (exists [], (set_affinity a (resource (self st)));
         cbn; repeat split; auto; lia).
  - destruct (le_lt_dec 60 tries); [|lia].
    exists [], (set_affinity a (resource (self st))). cbn.
    repeat split; auto.
    + apply (set_pod_replica_handle _
               (Build_St K (with_resource (set_affinity a (resource (self st)))
                              (self st)) w)).
    + apply (set_pod_replica_handle _
               (Build_St K (with_resource (set_affinity a (resource (self st)))
                              (self st)) w)).
    + apply (set_pod_replica_handle _
               (Build_St K (with_resource (set_affinity a (resource (self st)))
                              (self st)) w)).
    + right. right.
      exists e, (Build_St K (with_resource (set_affinity a (resource (self st)))
                              (self st)) w).
      repeat split; reflexivity.
  - destruct (le_lt_dec 60 tries); [lia|].
    destruct (read_namespaced_deployment K _ _ _) as [w' r'].
    destruct (read_outcome r') as [updated|e'] eqn:Ho.
    + apply read_outcome_Return in Ho. subst r'. cbn zeta.
      match goal with |- context [update_affinity_loop K a (S tries) ?s] =>
        destruct (IH (S tries) s ltac:(lia))
          as (rounds & b & Hb & Hall & Hlen & Hh & Hend)
      end.
      exists ((set_affinity a (resource (self st)), e, updated) :: rounds), b.
      split; [exact Hb|]. split; [constructor; [reflexivity|exact Hall]|].
      split; [cbn; lia|]. split; [exact Hh|]. cbn [final emitted result].
      destruct Hend as [(He & Hr)|[(e1 & r1 & e1' & Hl1 & He & Ho1 & Hr)
                                  |(e1 & sx & Hl1 & Hsx & He & Hr)]].
      * left. rewrite He, Hr. split; reflexivity.
      * right. left. exists e1, r1, e1'. rewrite He, Hr.
        repeat split; auto. cbn. lia.
      * right. right. exists e1, sx. rewrite He, Hr.
        repeat split; try apply Hsx; auto. cbn. lia.
    + exists [], (set_affinity a (resource (self st))).
      split; [reflexivity|]. split; [constructor|]. split; [cbn; lia|].
      split; [repeat split|].
      right. left. exists e, r', e'. cbn. repeat split; auto. lia.
Qed.

(** [_update_pod_affinity]: the loop from [tries = 0], then one read. *)
Lemma update_pod_affinity_shape (values : list string) (st : St K) :
  exists rounds b,
    affinity_of b = Some (build_affinity values)
    /\ Forall (fun x => affinity_of (fst (fst x)) = Some (build_affinity values))
         rounds
    /\ (List.length rounds <= 60)%nat
    /\ same_handle (self st) (self (final (_update_pod_affinity K values st)))
    /\ ((exists r,
           emitted (_update_pod_affinity K values st)
           = refreshes rounds ++ [Replace b None; Read r]
           /\ result (_update_pod_affinity K values st)
              = match read_outcome r with
                | Return _ => Return tt
                | Raise e => Raise e
                end)
        \/ (exists e r e',
              (List.length rounds < 60)%nat
              /\ emitted (_update_pod_affinity K values st)
                 = refreshes rounds ++ [Replace b (Some e); Sleep 1; Read r]
              /\ read_outcome r = Raise e'
              /\ result (_update_pod_affinity K values st) = Raise e')
        \/ (exists e sx,
              List.length rounds = 60%nat
              /\ same_handle (self st) (self sx)
              /\ emitted (_update_pod_affinity K values st)
                 = refreshes rounds
                   ++ Replace b (Some e)
                      :: emitted (_set_pod_replica K
                                    (num_replicas_before (self st)) sx)
              /\ result (_update_pod_affinity K values st)
                 = match result (_set_pod_replica K
                                   (num_replicas_before (self st)) sx) with
                   | Return _ => Raise (KubernetesException (Some e))
                   | Raise e' => Raise e'
                   end)).
Proof.
  destruct (update_affinity_loop_shape (build_affinity values) 60 0 st eq_refl)
    as (rounds & b & Hb & Hall & Hlen & Hh & Hend).
  exists rounds, b. split; [exact Hb|]. split; [exact Hall|].
  split; [exact Hlen|].
  unfold _update_pod_affinity.
  destruct Hend as [(He & Hr)|[(e1 & r1 & e1' & Hl1 & He & Ho1 & Hr)
                              |(e1 & sx & Hl1 & Hsx & He & Hr)]].
  - rewrite (bind_Return _ _ _ _ Hr). cbn [final emitted result].
    destruct (get_deployment_info_run
                (final (update_affinity_loop K (build_affinity values) 0 st)))
      as (w & r & _ & Hi).
    unfold bind, update_self. rewrite Hi. cbn [final emitted result].
    split.
    + destruct (read_outcome r); cbn; [|exact Hh].
      eapply same_handle_trans; [exact Hh|apply same_handle_with_resource].
    + left. exists r. rewrite He, <- app_assoc. cbn.
      destruct (read_outcome r); cbn; rewrite ?app_nil_r; auto.
  - rewrite (bind_Raise _ _ _ _ Hr). cbn [final emitted result].
    split; [exact Hh|]. right. left. exists e1, r1, e1'. auto.
  - assert (Hx : exists e', result (update_affinity_loop K (build_affinity values) 0 st)
                            = Raise e').
    { rewrite Hr. destruct (result (_set_pod_replica K _ sx)); eauto. }
    destruct Hx as (e' & Hx).
    rewrite (bind_Raise _ _ _ _ Hx). cbn [final emitted result].
    split; [exact Hh|]. right. right. exists e1, sx.
    rewrite <- Hr. auto.
Qed.

(** One turn of the convergence poll (lines 126-133). *)
Lemma await_loop_step (status_list : list string) (tries : nat) (st : St K) :
  await_loop K status_list tries st =
  if py_in KUBE_ERROR_TYPE status_list then
    if le_lt_dec 60 tries
    then {| final := st; emitted := [];
            result := Raise (KubernetesException None) |}
    else
      let o := _get_deployment_status K
                 (Build_St K (self st) (sleep K 1 (world st))) in
      match result o with
      | Return status_list' =>
          let o' := await_loop K status_list' (S tries) (final o) in
          {| final := final o';
             emitted := Sleep 1 :: emitted o ++ emitted o';
             result := result o' |}
      | Raise e =>
          {| final := final o;
             emitted := Sleep 1 :: emitted o;
             result := Raise e |}
      end
  else {| final := st; emitted := []; result := Return tt |}.
Proof.
  rewrite await_loop_equation_1.
  destruct (py_in KUBE_ERROR_TYPE status_list); [|reflexivity].
  destruct (le_lt_dec 60 tries); [reflexivity|].
  unfold bind at 1, time_sleep. cbn.
  unfold bind.
  destruct (result (_get_deployment_status K _)); reflexivity.
Qed.

(** The convergence poll entered with [status_list], [tries] turns counted
    and [k] turns left. It ends in one of three ways: a status without
    [ReplicaFailure] is seen; a status read raises; or [ReplicaFailure]
    shows in [status_list] and in all [k] further reads. *)
Lemma await_loop_shape :
  forall (k tries : nat) (status_list : list string) (st : St K),
    (tries + k = 60)%nat ->
    exists polls,
      emitted (await_loop K status_list tries st) = polling polls
      /\ (List.length polls <= k)%nat
      /\ same_handle (self st) (self (final (await_loop K status_list tries st)))
      /\ ((result (await_loop K status_list tries st) = Return tt
           /\ ((polls = [] /\ py_in KUBE_ERROR_TYPE status_list = false)
               \/ (exists pre r,
                     polls = pre ++ [r]
                     /\ py_in KUBE_ERROR_TYPE status_list = true
                     /\ forallb shows_failure pre = true
                     /\ shows_clear r = true)))
          \/ (exists pre r e,
                polls = pre ++ [r]
                /\ py_in KUBE_ERROR_TYPE status_list = true
                /\ forallb shows_failure pre = true
                /\ status_outcome r = Raise e
                /\ result (await_loop K status_list tries st) = Raise e)
          \/ (List.length polls = k
              /\ py_in KUBE_ERROR_TYPE status_list = true
              /\ forallb shows_failure polls = true
              /\ result (await_loop K status_list tries st)
                 = Raise (KubernetesException None))).
Proof.
  induction k as [|k IH]; intros tries sl st Hk; rewrite await_loop_step;
    destruct (py_in KUBE_ERROR_TYPE sl) eqn:Hin;
    try (exists []; cbn; split; [reflexivity|]; split; [lia|];
         split; [apply same_handle_refl|]; left; split; [reflexivity|];
         left; split; reflexivity).
  - destruct (le_lt_dec 60 tries); [|lia].
    exists []. cbn. split; [reflexivity|]. split; [lia|].
    split; [apply same_handle_refl|]. right. right. auto.
  - destruct (le_lt_dec 60 tries); [lia|]. cbn zeta.
    match goal with |- context [_get_deployment_status K ?s] =>
      pose proof (get_deployment_status_handle s) as Hh1;
      destruct (get_deployment_status_run s) as (w & r & _ & He1 & Hr1 & _)
    end.
    cbn [self] in Hh1. rewrite Hr1.
    destruct (status_outcome r) as [sl'|e] eqn:Ho.
    + match goal with |- context [await_loop K sl' (S tries) ?s] =>
        destruct (IH (S tries) sl' s ltac:(lia))
          as (polls & Hp & Hlen & Hh & Hend)
      end.
      exists (r :: polls). cbn [final emitted result].
      rewrite He1, Hp.
      split; [reflexivity|]. split; [cbn; lia|].
      split; [eapply same_handle_trans; [exact Hh1|exact Hh]|].
      destruct Hend as [(Hr & Hc)|[(pre & r' & e & Hpp & Hi' & Hall & Ho' & Hr)
                                  |(Hl' & Hi' & Hall & Hr)]].
      * left. split; [exact Hr|]. right.
        destruct Hc as [(-> & Hc)|(pre & r' & -> & Hi' & Hall & Hc)].
        -- exists [], r. repeat split; auto.
           unfold shows_clear. rewrite Ho, Hc. reflexivity.
        -- exists (r :: pre), r'. repeat split; auto.
           cbn. unfold shows_failure at 1. rewrite Ho, Hi'. exact Hall.
      * right. left. exists (r :: pre), r', e. subst polls.
        repeat split; auto.
        cbn. unfold shows_failure at 1. rewrite Ho, Hi'. exact Hall.
      * right. right. split; [cbn; lia|]. split; [reflexivity|].
        split; [|exact Hr].
        cbn. unfold shows_failure at 1. rewrite Ho, Hi'. exact Hall.
    + exists [r]. cbn [final emitted result]. rewrite He1.
      split; [reflexivity|]. split; [cbn; lia|].
      split; [exact Hh1|].
      right. left. exists [], r, e. repeat split; auto.
Qed.

(** [hard_mode], one step at a time (lines 118-121). *)
Lemma hard_mode_run (st : St K) :
  hard_mode K st =
  let o1 := _set_pod_replica K 0 st in
  match result o1 with
  | Raise e => {| final := final o1; emitted := emitted o1; result := Raise e |}
  | Return _ =>
      let o2 := _set_pod_replica K (num_replicas_before (self (final o1)))
                  (Build_St K (self (final o1)) (sleep K 1 (world (final o1)))) in
      {| final := final o2;
         emitted := emitted o1 ++ Sleep 1 :: emitted o2;
         result := result o2 |}
  end.
Proof.
  unfold hard_mode, bind, time_sleep, get_self. cbn.
  destruct (result (_set_pod_replica K 0 st)); reflexivity.
Qed.

Lemma hard_mode_handle (st : St K) :
  same_handle (self st) (self (final (hard_mode K st))).
Proof.
  rewrite hard_mode_run. cbn zeta.
  pose proof (set_pod_replica_handle 0 st) as H1.
  destruct (result (_set_pod_replica K 0 st)); cbn; [|exact H1].
  eapply same_handle_trans; [exact H1|].
  match goal with |- context [_set_pod_replica K ?n ?s] =>
    apply (set_pod_replica_handle n s)
  end.
Qed.

(** [escalation], one step at a time (lines 110-121). *)
Lemma escalation_run (values : list string) (st : St K) :
  escalation K values st =
  let o1 := _update_pod_affinity K values st in
  match result o1 with
  | Raise e => {| final := final o1; emitted := emitted o1; result := Raise e |}
  | Return _ =>
      let o2 := _get_deployment_status K
                  (Build_St K (self (final o1)) (sleep K 3 (world (final o1)))) in
      match result o2 with
      | Raise e =>
          {| final := final o2;
             emitted := emitted o1 ++ Sleep 3 :: emitted o2;
             result := Raise e |}
      | Return status_list =>
          if py_in KUBE_ERROR_TYPE status_list then
            let o3 := hard_mode K (final o2) in
            {| final := final o3;
               emitted := emitted o1 ++ Sleep 3 :: emitted o2 ++ emitted o3;
               result := result o3 |}
          else
            {| final := final o2;
               emitted := emitted o1 ++ Sleep 3 :: emitted o2;
               result := Return tt |}
      end
  end.
Proof.
  unfold escalation, bind, time_sleep. cbn.
  destruct (result (_update_pod_affinity K values st)); cbn; [|reflexivity].
  destruct (result (_get_deployment_status K _)); cbn; [|reflexivity].
  destruct (py_in KUBE_ERROR_TYPE a0); cbn; [reflexivity|].
  rewrite app_nil_r. reflexivity.
Qed.

(** The convergence poll with its first status read (lines 124-135). *)
Lemma await_recover_shape (st : St K) :
  exists r0 polls,
    emitted (await_recover K st) = Read r0 :: polling polls
    /\ (List.length polls <= 60)%nat
    /\ same_handle (self st) (self (final (await_recover K st)))
    /\ ((exists pre r,
           r0 :: polls = pre ++ [r]
           /\ forallb shows_failure pre = true
           /\ shows_clear r = true
           /\ result (await_recover K st)
              = Return {| deployment_name := deploy_name (self st);
                          status_flag := true |})
        \/ (exists pre r e,
              r0 :: polls = pre ++ [r]
              /\ forallb shows_failure pre = true
              /\ status_outcome r = Raise e
              /\ result (await_recover K st) = Raise e)
        \/ (List.length polls = 60%nat
            /\ forallb shows_failure (r0 :: polls) = true
            /\ result (await_recover K st)
               = Raise (KubernetesException None))).
Proof.
  pose proof (get_deployment_status_handle st) as Hh0.
  destruct (get_deployment_status_run st) as (w & r0 & _ & He0 & Hr0 & _).
  unfold await_recover.
  destruct (status_outcome r0) as [sl|e] eqn:Ho.
  - rewrite (bind_Return _ _ _ _ Hr0). cbn [final emitted result].
    destruct (await_loop_shape 60 0 sl (final (_get_deployment_status K st))
                eq_refl) as (polls & Hp & Hlen & Hh & Hend).
    exists r0, polls. rewrite He0.
    assert (Hhh : same_handle (self st)
                    (self (final (await_loop K sl 0
                                    (final (_get_deployment_status K st)))))).
    { eapply same_handle_trans; [exact Hh0|exact Hh]. }
    destruct Hend as [(Hr & Hc)|[(pre & r' & e & Hpp & Hi' & Hall & Ho' & Hr)
                                |(Hl' & Hi' & Hall & Hr)]].
    + rewrite (bind_Return _ _ _ _ Hr). unfold bind, get_self, ret. cbn.
      rewrite Hp, app_nil_r.
      split; [reflexivity|]. split; [exact Hlen|]. split; [exact Hhh|].
      left. destruct Hhh as (Hn & _). rewrite Hn.
      destruct Hc as [(-> & Hc)|(pre & r' & -> & Hi' & Hall & Hc)].
      * exists [], r0. repeat split; auto.
        unfold shows_clear. rewrite Ho, Hc. reflexivity.
      * exists (r0 :: pre), r'. repeat split; auto.
        cbn. unfold shows_failure at 1. rewrite Ho, Hi'. exact Hall.
    + rewrite (bind_Raise _ _ _ _ Hr). cbn. rewrite Hp.
      split; [reflexivity|]. split; [exact Hlen|]. split; [exact Hhh|].
      right. left. exists (r0 :: pre), r', e. subst polls.
      repeat split; auto.
      cbn. unfold shows_failure at 1. rewrite Ho, Hi'. exact Hall.
    + rewrite (bind_Raise _ _ _ _ Hr). cbn. rewrite Hp.
      split; [reflexivity|]. split; [exact Hlen|]. split; [exact Hhh|].
      right. right. split; [exact Hl'|]. split; [|reflexivity].
      cbn. unfold shows_failure at 1. rewrite Ho, Hi'. exact Hall.
  - rewrite (bind_Raise _ _ _ _ Hr0). cbn. rewrite He0.
    exists r0, []. split; [reflexivity|]. split; [cbn; lia|].
    split; [exact Hh0|]. right. left. exists [], r0, e. auto.
Qed.

(** *** What the events of each shape contain *)

Lemma patch_outcomes_attempts n fails last :
  patch_outcomes (attempts (Patch n) fails last) = map Some fails ++ [last].
Proof.
  unfold attempts. induction fails as [|e fails IH]; cbn; [reflexivity|].
  f_equal. exact IH.
Qed.

Lemma patch_targets_attempts n fails last :
  patch_targets (attempts (Patch n) fails last)
  = repeat n (S (List.length fails)).
Proof.
  unfold attempts. induction fails as [|e fails IH]; cbn; [reflexivity|].
  f_equal. exact IH.
Qed.

Lemma delays_attempts n fails last :
  delays (attempts (Patch n) fails last) = repeat 1 (List.length fails).
Proof.
  unfold attempts. induction fails as [|e fails IH]; cbn; [reflexivity|].
  f_equal. exact IH.
Qed.

Lemma replace_outcomes_attempts n fails last :
  replace_outcomes (attempts (Patch n) fails last) = [].
Proof.
  unfold attempts. induction fails as [|e fails IH]; cbn; [reflexivity|].
  exact IH.
Qed.

Lemma replace_bodies_attempts n fails last :
  replace_bodies (attempts (Patch n) fails last) = [].
Proof.
  unfold attempts. induction fails as [|e fails IH]; cbn; [reflexivity|].
  exact IH.
Qed.

Lemma no_settle_app t1 t2 :
  no_settle (t1 ++ t2) = no_settle t1 && no_settle t2.
Proof. apply forallb_app. Qed.

Lemma no_settle_attempts n fails last :
  no_settle (attempts (Patch n) fails last) = true.
Proof.
  unfold attempts. induction fails as [|e fails IH]; cbn; [reflexivity|].
  exact IH.
Qed.

Lemma refetch_error_attempts n fails last tail :
  refetch_error (attempts (Patch n) fails last ++ tail) = refetch_error tail.
Proof.
  unfold attempts. induction fails as [|e fails IH]; cbn; [reflexivity|].
  destruct fails; cbn in *; exact IH.
Qed.

Lemma replace_outcomes_refreshes rounds :
  replace_outcomes (refreshes rounds)
  = map (fun x => Some (snd (fst x))) rounds.
Proof.
  induction rounds as [|[[b e] d] rounds IH]; cbn; [reflexivity|].
  f_equal. exact IH.
Qed.

Lemma replace_bodies_refreshes rounds :
  replace_bodies (refreshes rounds) = map (fun x => fst (fst x)) rounds.
Proof.
  induction rounds as [|[[b e] d] rounds IH]; cbn; [reflexivity|].
  f_equal. exact IH.
Qed.

Lemma patch_targets_refreshes rounds : patch_targets (refreshes rounds) = [].
Proof.
  induction rounds as [|[[b e] d] rounds IH]; cbn; [reflexivity|exact IH].
Qed.

Lemma no_settle_refreshes rounds : no_settle (refreshes rounds) = true.
Proof.
  induction rounds as [|[[b e] d] rounds IH]; cbn; [reflexivity|exact IH].
Qed.

Lemma refetch_error_refreshes rounds b f tail :
  refetch_error (refreshes rounds ++ Replace b f :: tail) = refetch_error tail.
Proof.
  induction rounds as [|[[b' e] d] rounds IH]; cbn; [reflexivity|].
  exact IH.
Qed.

Lemma patch_targets_polling polls : patch_targets (polling polls) = [].
Proof.
  induction polls as [|r polls IH]; cbn; [reflexivity|exact IH].
Qed.

Lemma replace_bodies_polling polls : replace_bodies (polling polls) = [].
Proof.
  induction polls as [|r polls IH]; cbn; [reflexivity|exact IH].
Qed.

Lemma delays_polling polls :
  delays (polling polls) = repeat 1 (List.length polls).
Proof.
  induction polls as [|r polls IH]; cbn; [reflexivity|].
  f_equal. exact IH.
Qed.

Lemma read_responses_polling polls : read_responses (polling polls) = polls.
Proof.
  induction polls as [|r polls IH]; cbn; [reflexivity|].
  f_equal. exact IH.
Qed.

Lemma after_settle_app t1 t2 :
  no_settle t1 = true -> after_settle (t1 ++ Sleep 3 :: t2) = t2.
Proof.
  induction t1 as [|ev t1 IH]; cbn; [reflexivity|].
  intros H. apply andb_true_iff in H. destruct H as (H1 & H2).
  destruct ev; auto.
  destruct (seconds =? 3); [discriminate|auto].
Qed.

Lemma after_settle_none t1 : no_settle t1 = true -> after_settle t1 = [].
Proof.
  induction t1 as [|ev t1 IH]; cbn; [reflexivity|].
  intros H. apply andb_true_iff in H. destruct H as (H1 & H2).
  destruct ev; auto.
  destruct (seconds =? 3); [discriminate|auto].
Qed.

(** In a run of attempts, a success can only be the last answer. *)
Lemma nth_error_success {A} (fails : list A) (last : option A) (i : nat) :
  nth_error (map Some fails ++ [last]) i = Some None ->
  i = List.length fails /\ last = None.
Proof.
  revert i. induction fails as [|e fails IH]; intros [|i]; cbn; intros H.
  - split; congruence.
  - destruct i; discriminate.
  - discriminate.
  - destruct (IH i H). split; congruence.
Qed.

Lemma forallb_failed_map_Some (fails : list exn) :
  forallb failed (map Some fails) = true.
Proof. induction fails; cbn; auto. Qed.

Lemma shows_failure_not_clear r : shows_failure r = true -> shows_clear r = false.
Proof.
  unfold shows_failure, shows_clear.
  destruct (status_outcome r); [|auto]. intros ->. reflexivity.
Qed.

(** The events of [_set_pod_replica n]: patches of [n] and one-second delays,
    at least one patch, and at most one read, at the very end and not after
    a delay. *)
Lemma set_pod_replica_trace (n : Z) (st : St K) :
  patch_targets (emitted (_set_pod_replica K n st))
  = repeat n (List.length (patch_targets (emitted (_set_pod_replica K n st))))
  /\ (exists f rest, emitted (_set_pod_replica K n st) = Patch n f :: rest)
  /\ replace_bodies (emitted (_set_pod_replica K n st)) = []
  /\ replace_outcomes (emitted (_set_pod_replica K n st)) = []
  /\ no_settle (emitted (_set_pod_replica K n st)) = true
  /\ refetch_error (emitted (_set_pod_replica K n st)) = None.
Proof.
  destruct (set_pod_replica_shape n st) as (fails & [e|] & Hl & H).
  - destruct H as (-> & _).
    rewrite patch_targets_attempts, repeat_length, replace_bodies_attempts,
      replace_outcomes_attempts, no_settle_attempts.
    repeat split; auto.
    + destruct fails; cbn; eauto.
    + rewrite <- (app_nil_r (attempts _ _ _)), refetch_error_attempts.
      reflexivity.
  - destruct H as (r & -> & _).
    rewrite patch_targets_app, replace_bodies_app, replace_outcomes_app,
      no_settle_app, patch_targets_attempts, replace_bodies_attempts,
      replace_outcomes_attempts, no_settle_attempts, refetch_error_attempts.
    cbn. rewrite app_nil_r, repeat_length.
    repeat split; auto.
    destruct fails; cbn; eauto.
Qed.

End Facts.

(** ** The workflow, one step at a time *)

Lemma reallocate_pod_try_run (K : Cluster) (values : list string) (st : St K) :
  reallocate_pod_try K values st =
  let o1 := escalation K values st in
  match result o1 with
  | Raise e => {| final := final o1; emitted := emitted o1; result := Raise e |}
  | Return _ =>
      let o2 := await_recover K (final o1) in
      {| final := final o2;
         emitted := emitted o1 ++ emitted o2;
         result := result o2 |}
  end.
Proof.
  unfold reallocate_pod_try, bind.
  destruct (result (escalation K values st)); reflexivity.
Qed.

(** The [except] clause changes the result only. *)
Lemma reallocate_pod_emitted (K : Cluster) (nf : bool) values (st : St K) :
  emitted (reallocate_pod K nf values st)
  = emitted (reallocate_pod_try K values st)
  /\ final (reallocate_pod K nf values st)
     = final (reallocate_pod_try K values st).
Proof.
  unfold reallocate_pod.
  destruct (result (reallocate_pod_try K values st)) as [r|e]; [auto|].
  destruct (isinstance_KubernetesException nf e); auto.
Qed.

Lemma update_pod_affinity_handle (K : Cluster) values (st : St K) :
  same_handle (self st) (self (final (_update_pod_affinity K values st))).
Proof.
  destruct (update_pod_affinity_shape K values st)
    as (_ & _ & _ & _ & _ & H & _). exact H.
Qed.

Lemma escalation_handle (K : Cluster) values (st : St K) :
  same_handle (self st) (self (final (escalation K values st))).
Proof.
  rewrite escalation_run. cbn zeta.
  pose proof (update_pod_affinity_handle K values st) as H1.
  destruct (result (_update_pod_affinity K values st)); [|exact H1].
  match goal with |- context [_get_deployment_status K ?s] =>
    pose proof (get_deployment_status_handle K s) as H2
  end.
  cbn [self] in H2.
  assert (H12 := same_handle_trans _ _ _ H1 H2).
  destruct (result (_get_deployment_status K _)); [|exact H12].
  destruct (py_in KUBE_ERROR_TYPE a0); [|exact H12].
  eapply same_handle_trans; [exact H12|apply hard_mode_handle].
Qed.

Lemma await_recover_handle (K : Cluster) (st : St K) :
  same_handle (self st) (self (final (await_recover K st))).
Proof.
  destruct (await_recover_shape K st) as (_ & _ & _ & _ & H & _). exact H.
Qed.

Lemma reallocate_pod_handle (K : Cluster) (nf : bool) values (st : St K) :
  same_handle (self st) (self (final (reallocate_pod K nf values st))).
Proof.
  destruct (reallocate_pod_emitted K nf values st) as (_ & ->).
  rewrite reallocate_pod_try_run. cbn zeta.
  pose proof (escalation_handle K values st) as H1.
  destruct (result (escalation K values st)); [|exact H1].
  eapply same_handle_trans; [exact H1|apply await_recover_handle].
Qed.

(** The objects the affinity mutator submits, and the patches it makes. *)
Lemma update_pod_affinity_calls (K : Cluster) values (st : St K) :
  (exists (rounds : list (V1Deployment * exn * V1Deployment)) b,
     replace_bodies (emitted (_update_pod_affinity K values st))
     = map (fun x => fst (fst x)) rounds ++ [b]
     /\ affinity_of b = Some (build_affinity values)
     /\ Forall (fun x => affinity_of (fst (fst x)) = Some (build_affinity values))
          rounds)
  /\ patch_targets (emitted (_update_pod_affinity K values st))
     = repeat (num_replicas_before (self st))
         (List.length (patch_targets (emitted (_update_pod_affinity K values st))))
  /\ no_settle (emitted (_update_pod_affinity K values st)) = true
  /\ (result (_update_pod_affinity K values st) = Return tt ->
      patch_targets (emitted (_update_pod_affinity K values st)) = []).
Proof.
  destruct (update_pod_affinity_shape K values st)
    as (rounds & b & Hb & Hall & _ & _ & Hend).
  destruct Hend as [(r & He & Hr)|[(e1 & r1 & e1' & Hl1 & He & Ho1 & Hr)
                                  |(e1 & sx & Hl1 & Hsx & He & Hr)]];
    rewrite He, replace_bodies_app, patch_targets_app, no_settle_app,
      replace_bodies_refreshes, patch_targets_refreshes, no_settle_refreshes.
  - cbn. repeat split; auto. exists rounds, b. auto.
  - cbn. repeat split; auto. exists rounds, b. auto.
  - destruct (set_pod_replica_trace K (num_replicas_before (self st)) sx)
      as (Ht & _ & Hbod & _ & Hns & _).
    change (replace_bodies (Replace b (Some e1) :: ?t))
      with (b :: replace_bodies t).
    change (patch_targets (Replace b (Some e1) :: ?t)) with (patch_targets t).
    change (no_settle (Replace b (Some e1) :: ?t)) with (no_settle t).
    rewrite Hbod, Hns. cbn [app andb].
    repeat split; auto.
    + exists rounds, b. auto.
    + rewrite Hr. destruct (result (_set_pod_replica K _ sx)); discriminate.
Qed.


Lemma shows_clear_Return r l :
  status_outcome r = Return l ->
  shows_clear r = negb (py_in KUBE_ERROR_TYPE l)
  /\ shows_failure r = py_in KUBE_ERROR_TYPE l.
Proof. unfold shows_clear, shows_failure. intros ->. auto. Qed.

Lemma shows_Raise r e :
  status_outcome r = Raise e -> shows_clear r = false /\ shows_failure r = false.
Proof. unfold shows_clear, shows_failure. intros ->. auto. Qed.

(** [hard_mode] starts with a patch of the replicas to 0; its patches are to
    0 and then to the recorded count; it replaces nothing. *)
Lemma hard_mode_trace (K : Cluster) (st : St K) :
  (exists f rest, emitted (hard_mode K st) = Patch 0 f :: rest)
  /\ (exists k1 k2,
        patch_targets (emitted (hard_mode K st))
        = repeat 0 k1 ++ repeat (num_replicas_before (self st)) k2)
  /\ replace_bodies (emitted (hard_mode K st)) = [].
Proof.
  rewrite hard_mode_run. cbn zeta.
  destruct (set_pod_replica_trace K 0 st) as (Ht & (f & rest & Hp) & Hb & _).
  pose proof (set_pod_replica_handle K 0 st) as (_ & _ & Hn).
  destruct (result (_set_pod_replica K 0 st)); cbn [emitted].
  - match goal with |- context [_set_pod_replica K ?n (Build_St K ?o ?w)] =>
      destruct (set_pod_replica_trace K n (Build_St K o w))
        as (Ht2 & _ & Hb2 & _)
    end.
    rewrite patch_targets_app, replace_bodies_app, Hb.
    change (patch_targets (Sleep 1 :: ?t)) with (patch_targets t).
    change (replace_bodies (Sleep 1 :: ?t)) with (replace_bodies t).
    rewrite Hb2, Ht, Ht2, Hn. split; [|split; [eauto|reflexivity]].
    rewrite Hp. cbn. eauto.
  - split; [eauto|]. split; [|exact Hb].
    rewrite Ht. exists (List.length (patch_targets (emitted (_set_pod_replica K 0 st)))), 0%nat.
    cbn. rewrite app_nil_r. reflexivity.
Qed.

(** How [escalation] ends: the affinity mutator raised; or the status read
    after the settle delay raised; or that read shows no [ReplicaFailure]
    and nothing more is done; or it shows [ReplicaFailure] and [hard_mode]
    is run next. *)
Lemma escalation_cases (K : Cluster) (values : list string) (st : St K) :
  (exists e,
     result (_update_pod_affinity K values st) = Raise e
     /\ emitted (escalation K values st)
        = emitted (_update_pod_affinity K values st)
     /\ result (escalation K values st) = Raise e)
  \/ (result (_update_pod_affinity K values st) = Return tt
      /\ exists r s2,
           same_handle (self st) (self s2)
           /\ ((exists e,
                  status_outcome r = Raise e
                  /\ emitted (escalation K values st)
                     = emitted (_update_pod_affinity K values st)
                       ++ [Sleep 3; Read r]
                  /\ result (escalation K values st) = Raise e)
               \/ (shows_clear r = true
                   /\ emitted (escalation K values st)
                      = emitted (_update_pod_affinity K values st)
                        ++ [Sleep 3; Read r]
                   /\ result (escalation K values st) = Return tt
                   /\ final (escalation K values st) = s2)
               \/ (shows_failure r = true
                   /\ emitted (escalation K values st)
                      = emitted (_update_pod_affinity K values st)
                        ++ Sleep 3 :: Read r :: emitted (hard_mode K s2)
                   /\ result (escalation K values st)
                      = result (hard_mode K s2)
                   /\ final (escalation K values st)
                      = final (hard_mode K s2)))).
Proof.
  rewrite escalation_run. cbn zeta.
  pose proof (update_pod_affinity_handle K values st) as H1.
  destruct (result (_update_pod_affinity K values st)) as [[]|e] eqn:R1.
  - right. split; [reflexivity|].
    match goal with |- context [_get_deployment_status K ?s] =>
      pose proof (get_deployment_status_handle K s) as H2;
      destruct (get_deployment_status_run K s) as (w & r & _ & He & Hr & _)
    end.
    cbn [self] in H2. assert (H12 := same_handle_trans _ _ _ H1 H2).
    exists r. eexists. split; [exact H12|].
    rewrite Hr, He.
    destruct (status_outcome r) as [l|e] eqn:Ho.
    + destruct (shows_clear_Return r l Ho) as (Hc & Hf).
      destruct (py_in KUBE_ERROR_TYPE l) eqn:Hin; cbn [final emitted result].
      * right. right. auto.
      * right. left. auto.
    + left. exists e. auto.
  - left. exists e. auto.
Qed.







(** The reads of the convergence poll, as events, end on the last read. *)
Lemma poll_events_last r0 polls pre r :
  r0 :: polls = pre ++ [r] ->
  exists t, Read r0 :: polling polls = t ++ [Read r].
Proof.
  destruct pre as [|r1 pre]; cbn; intros H; injection H as -> ->.
  - exists []. reflexivity.
  - exists (Read r1 :: polling pre ++ [Sleep 1]).
    unfold polling. rewrite flat_map_app. cbn.
    rewrite <- app_assoc. reflexivity.
Qed.




(** ** Bounded retry *)

(** The replica setter: with every patch refused it makes 61 attempts, the
    first 60 each followed by a one-second delay, and raises
    [KubernetesException]; a patch accepted on attempt [k] is the last of
    exactly [k] attempts. *)
Lemma set_pod_replica_retry (K : Cluster) (n : Z) (st : St K) :
  (forallb failed (patch_outcomes (emitted (_set_pod_replica K n st))) = true ->
   exists fails e,
     List.length fails = 60%nat
     /\ emitted (_set_pod_replica K n st) = attempts (Patch n) fails (Some e)
     /\ List.length (patch_outcomes (emitted (_set_pod_replica K n st))) = 61%nat
     /\ delays (emitted (_set_pod_replica K n st)) = repeat 1 60
     /\ result (_set_pod_replica K n st) = Raise (KubernetesException (Some e)))
  /\ (forall k : nat,
        (1 <= k)%nat ->
        nth_error (patch_outcomes (emitted (_set_pod_replica K n st))) (k - 1)
        = Some None ->
        (k <= 61)%nat
        /\ List.length (patch_outcomes (emitted (_set_pod_replica K n st))) = k
        /\ delays (emitted (_set_pod_replica K n st)) = repeat 1 (k - 1)).
Proof.
  destruct (set_pod_replica_shape K n st) as (fails & [e|] & Hl & H).
  - destruct H as (He & Hlen & Hr & _). rewrite He, Hr.
    rewrite patch_outcomes_attempts, delays_attempts, length_app, length_map,
      Hlen.
    split.
    + intros _. exists fails, e. auto.
    + intros k Hk Hn. apply nth_error_success in Hn.
      destruct Hn as (_ & Hn). discriminate.
  - destruct H as (r & He & Hr & _). rewrite He.
    rewrite patch_outcomes_app, delays_app, patch_outcomes_attempts,
      delays_attempts. cbn [patch_outcomes delays flat_map].
    rewrite !app_nil_r, length_app, length_map.
    split.
    + rewrite forallb_app. cbn. rewrite andb_false_r. discriminate.
    + intros k Hk Hn. apply nth_error_success in Hn.
      destruct Hn as (Hn & _). cbn.
      replace (k - 1)%nat with (List.length fails) by lia.
      repeat split; auto; lia.
Qed.

(** The affinity mutator: with every replace refused and every snapshot read
    between attempts answered, it makes 61 attempts, the first 60 each
    followed by a one-second delay and a read, then runs the replica setter
    and raises; a replace accepted on attempt [k] is the last of exactly [k]
    attempts. *)
Lemma update_pod_affinity_retry (K : Cluster) (values : list string) (st : St K) :
  (forallb failed (replace_outcomes (emitted (_update_pod_affinity K values st)))
   = true ->
   refetch_error (emitted (_update_pod_affinity K values st)) = None ->
   List.length (replace_outcomes (emitted (_update_pod_affinity K values st)))
   = 61%nat
   /\ (exists e', result (_update_pod_affinity K values st) = Raise e')
   /\ exists rounds b e sx,
        List.length rounds = 60%nat
        /\ emitted (_update_pod_affinity K values st)
           = refreshes rounds
             ++ Replace b (Some e)
                :: emitted (_set_pod_replica K (num_replicas_before (self st)) sx))
  /\ (forall k : nat,
        (1 <= k)%nat ->
        nth_error (replace_outcomes (emitted (_update_pod_affinity K values st)))
          (k - 1) = Some None ->
        (k <= 61)%nat
        /\ List.length
             (replace_outcomes (emitted (_update_pod_affinity K values st))) = k).
Proof.
  destruct (update_pod_affinity_shape K values st)
    as (rounds & b & _ & _ & Hlen & _ & Hend).
  destruct Hend as [(r & He & Hr)|[(e1 & r1 & e1' & Hl1 & He & Ho1 & Hr)
                                  |(e1 & sx & Hl1 & Hsx & He & Hr)]];
    rewrite He.
  - rewrite replace_outcomes_app, replace_outcomes_refreshes. cbn.
    rewrite length_app. cbn. rewrite length_map.
    split.
    + rewrite forallb_app. cbn. rewrite andb_false_r. discriminate.
    + intros k Hk Hn.
      rewrite <- (map_map (fun x => snd (fst x)) Some) in Hn.
      apply nth_error_success in Hn. destruct Hn as (Hn & _).
      rewrite length_map in Hn. lia.
  - split.
    + intros _ Hre. rewrite refetch_error_refreshes in Hre. cbn in Hre.
      destruct r1 as [e0|d]; [discriminate|]. cbn in Ho1. discriminate.
    + rewrite replace_outcomes_app, replace_outcomes_refreshes. cbn.
      intros k Hk Hn.
      rewrite <- (map_map (fun x => snd (fst x)) Some) in Hn.
      apply nth_error_success in Hn. destruct Hn as (_ & Hn). discriminate.
  - destruct (set_pod_replica_trace K (num_replicas_before (self st)) sx)
      as (_ & _ & _ & Hno & _).
    rewrite replace_outcomes_app, replace_outcomes_refreshes.
    change (replace_outcomes (Replace b (Some e1) :: ?t))
      with (Some e1 :: replace_outcomes t).
    rewrite Hno, length_app, length_map. cbn [List.length].
    split.
    + intros _ _. split; [lia|]. split.
      * rewrite Hr. destruct (result (_set_pod_replica K _ sx)); eauto.
      * exists rounds, b, e1, sx. auto.
    + intros k Hk Hn.
      rewrite <- (map_map (fun x => snd (fst x)) Some) in Hn.
      apply nth_error_success in Hn. destruct Hn as (_ & Hn). discriminate.
Qed.

(** C2, as stated, fails: with every patch refused the replica setter makes
    61 attempts, not 60. *)
Lemma C2_sixty_attempts_counterexample :
  forallb failed
    (patch_outcomes (emitted (_set_pod_replica scripted 3 (start stuck)))) = true
  /\ List.length
       (patch_outcomes (emitted (_set_pod_replica scripted 3 (start stuck))))
     = 61%nat
  /\ List.length
       (patch_outcomes (emitted (_set_pod_replica scripted 3 (start stuck))))
     <> 60%nat.
Proof. vm_compute. repeat split; discriminate. Qed.

(** C2, amended: a retry-wrapped operation whose call is refused on every
    attempt makes exactly 61 attempts (the first and 60 retries), each retry
    after a one-second delay, and then raises; for the affinity mutator this
    needs the snapshot reads between attempts to succeed. If the call is
    accepted on attempt [k], with [k <= 61], exactly [k] attempts are made. *)
Theorem C2_bounded_retry (K : Cluster) (n : Z) (values : list string) (st : St K) :
  ((forallb failed (patch_outcomes (emitted (_set_pod_replica K n st))) = true ->
    exists fails e,
      List.length fails = 60%nat
      /\ emitted (_set_pod_replica K n st) = attempts (Patch n) fails (Some e)
      /\ List.length (patch_outcomes (emitted (_set_pod_replica K n st))) = 61%nat
      /\ delays (emitted (_set_pod_replica K n st)) = repeat 1 60
      /\ result (_set_pod_replica K n st) = Raise (KubernetesException (Some e)))
   /\ (forall k : nat,
         (1 <= k)%nat ->
         nth_error (patch_outcomes (emitted (_set_pod_replica K n st))) (k - 1)
         = Some None ->
         (k <= 61)%nat
         /\ List.length (patch_outcomes (emitted (_set_pod_replica K n st))) = k
         /\ delays (emitted (_set_pod_replica K n st)) = repeat 1 (k - 1)))
  /\
  ((forallb failed (replace_outcomes (emitted (_update_pod_affinity K values st)))
    = true ->
    refetch_error (emitted (_update_pod_affinity K values st)) = None ->
    List.length (replace_outcomes (emitted (_update_pod_affinity K values st)))
    = 61%nat
    /\ (exists e', result (_update_pod_affinity K values st) = Raise e')
    /\ exists rounds b e sx,
         List.length rounds = 60%nat
         /\ emitted (_update_pod_affinity K values st)
            = refreshes rounds
              ++ Replace b (Some e)
                 :: emitted (_set_pod_replica K (num_replicas_before (self st)) sx))
   /\ (forall k : nat,
         (1 <= k)%nat ->
         nth_error (replace_outcomes (emitted (_update_pod_affinity K values st)))
           (k - 1) = Some None ->
         (k <= 61)%nat
         /\ List.length
              (replace_outcomes (emitted (_update_pod_affinity K values st))) = k)).
Proof.
  split.
  - apply set_pod_replica_retry.
  - apply update_pod_affinity_retry.
Qed.

(** C2 at work: all patches refused, 61 attempts; accepted the third time,
    three attempts; all replaces refused, 61 attempts. *)
Lemma C2_bounded_retry_witness :
  List.length
    (patch_outcomes (emitted (_set_pod_replica scripted 3 (start stuck))))
  = 61%nat
  /\ List.length
       (patch_outcomes
          (emitted (_set_pod_replica scripted 3 (start patch_third_time))))
     = 3%nat
  /\ List.length
       (replace_outcomes
          (emitted (_update_pod_affinity scripted ["node-1"]
                      (start replace_refused))))
     = 61%nat.
Proof.
  destruct (C2_bounded_retry scripted 3 ["node-1"] (start stuck))
    as ((H1 & _) & _).
  destruct (C2_bounded_retry scripted 3 ["node-1"] (start patch_third_time))
    as ((_ & H2) & _).
  destruct (C2_bounded_retry scripted 3 ["node-1"] (start replace_refused))
    as (_ & (H3 & _)).
  split; [|split].
  - destruct (H1 eq_refl) as (fails & e & _ & _ & H & _). exact H.
  - destruct (H2 3%nat ltac:(lia) eq_refl) as (_ & H & _). exact H.
  - destruct (H3 eq_refl eq_refl) as (H & _). exact H.
Defined.

(** ** Rollback when the affinity budget is spent *)

Lemma nth_error_last_attempt {A} (fails : list A) (last : option A)
    (i : nat) (x : option A) :
  (List.length fails <= i)%nat ->
  nth_error (map Some fails ++ [last]) i = Some x ->
  i = List.length fails /\ last = x.
Proof.
  intros Hi H. rewrite nth_error_app2 in H by (rewrite length_map; exact Hi).
  rewrite length_map in H.
  destruct (i - List.length fails)%nat as [|j] eqn:E; cbn in H.
  - split; [lia|congruence].
  - destruct j; discriminate.
Qed.

(** C3: in every run of the affinity mutator whose 61st replace is refused
    (the budget is spent), the replica setter is run with the count recorded
    at construction right after that refusal, and only then is an error
    raised; the avoid-list plays no part. *)
Theorem C3_rollback_on_exhaustion (K : Cluster) (values : list string)
    (st : St K) (e : exn) :
  nth_error (replace_outcomes (emitted (_update_pod_affinity K values st))) 60
  = Some (Some e) ->
  exists rounds b sx,
    List.length rounds = 60%nat
    /\ num_replicas_before (self sx) = num_replicas_before (self st)
    /\ emitted (_update_pod_affinity K values st)
       = refreshes rounds
         ++ Replace b (Some e)
            :: emitted (_set_pod_replica K (num_replicas_before (self st)) sx)
    /\ (exists f rest,
          emitted (_set_pod_replica K (num_replicas_before (self st)) sx)
          = Patch (num_replicas_before (self st)) f :: rest)
    /\ result (_update_pod_affinity K values st)
       = match result (_set_pod_replica K (num_replicas_before (self st)) sx) with
         | Return _ => Raise (KubernetesException (Some e))
         | Raise e' => Raise e'
         end.
Proof.
  intros Hn.
  destruct (update_pod_affinity_shape K values st)
    as (rounds & b & _ & _ & Hlen & _ & Hend).
  destruct Hend as [(r & He & Hr)|[(e1 & r1 & e1' & Hl1 & He & Ho1 & Hr)
                                  |(e1 & sx & Hl1 & Hsx & He & Hr)]];
    rewrite He, replace_outcomes_app, replace_outcomes_refreshes in Hn;
    rewrite <- (map_map (fun x => snd (fst x)) Some) in Hn.
  - change (replace_outcomes [Replace b None; Read r]) with [@None exn] in Hn.
    apply nth_error_last_attempt in Hn;
      rewrite length_map in *; [|exact Hlen].
    destruct Hn as (_ & Hn). discriminate.
  - change (replace_outcomes [Replace b (Some e1); Sleep 1; Read r1])
      with [Some e1] in Hn.
    apply nth_error_last_attempt in Hn;
      rewrite length_map in *; lia.
  - destruct (set_pod_replica_trace K (num_replicas_before (self st)) sx)
      as (_ & Hp & _ & Hno & _).
    change (replace_outcomes (Replace b (Some e1) :: ?t))
      with (Some e1 :: replace_outcomes t) in Hn.
    rewrite Hno in Hn.
    apply nth_error_last_attempt in Hn; rewrite length_map in *; [|lia].
    destruct Hn as (_ & Hn). injection Hn as <-.
    exists rounds, b, sx. destruct Hsx as (_ & _ & Hsx). auto.
Qed.

(** C3 at work: every replace refused for deployment "api" with 3 replicas. *)
Lemma C3_rollback_on_exhaustion_witness :
  exists rounds b sx,
    List.length rounds = 60%nat
    /\ num_replicas_before (self sx) = 3
    /\ emitted (_update_pod_affinity scripted ["node-1"] (start replace_refused))
       = refreshes rounds
         ++ Replace b (Some (ApiException "Conflict"))
            :: emitted (_set_pod_replica scripted 3 sx)
    /\ (exists f rest,
          emitted (_set_pod_replica scripted 3 sx) = Patch 3 f :: rest)
    /\ result (_update_pod_affinity scripted ["node-1"] (start replace_refused))
       = match result (_set_pod_replica scripted 3 sx) with
         | Return _ => Raise (KubernetesException (Some (ApiException "Conflict")))
         | Raise e' => Raise e'
         end.
Proof.
  apply (C3_rollback_on_exhaustion scripted ["node-1"] (start replace_refused)
           (ApiException "Conflict")).
  vm_compute. reflexivity.
Defined.

(** ** The affinity submitted *)

(** C7: every object the affinity mutator submits, and it submits at least
    one, carries an affinity with exactly one preferred scheduling term, of
    weight 1, whose one match expression has key [kubernetes.io/hostname],
    operator [In] and the avoid-list as its values. *)
Theorem C7_submitted_affinity (K : Cluster) (values : list string) (st : St K) :
  replace_bodies (emitted (_update_pod_affinity K values st)) <> []
  /\ Forall
       (fun body =>
          affinity_of body
          = Some {| node_affinity :=
                      Some {| preferred_during_scheduling_ignored_during_execution :=
                                Some [ {| preference :=
                                            {| match_expressions :=
                                                 Some [ {| key := "kubernetes.io/hostname";
                                                           operator := "In";
                                                           values := values |} ];
                                               match_fields := None |};
                                          weight := 1 |} ];
                              required_during_scheduling_ignored_during_execution :=
                                None |};
                    pod_affinity := None;
                    pod_anti_affinity := None |})
       (replace_bodies (emitted (_update_pod_affinity K values st))).
Proof.
  destruct (update_pod_affinity_calls K values st)
    as ((rounds & b & -> & Hb & Hall) & _).
  split.
  - destruct (map _ rounds); discriminate.
  - apply Forall_app. split.
    + apply Forall_map. exact Hall.
    + constructor; [exact Hb|constructor].
Qed.

(** ** A failed read between two replace attempts *)

(** C10, as stated, fails: the read made between two replace attempts fails
    with the API error "Not Found". What leaves the affinity mutator is not
    that error but [KubernetesDeploymentNotFoundException], which
    [reallocate_pod] raises to its caller or, where that class is a
    [KubernetesException], turns into [status: False]. *)
Lemma C10_not_found_refetch_counterexample :
  refetch_error
    (emitted (_update_pod_affinity scripted ["node-1"] (start refetch_not_found)))
  = Some (ApiException "Not Found")
  /\ result (_update_pod_affinity scripted ["node-1"] (start refetch_not_found))
     = Raise KubernetesDeploymentNotFoundException
  /\ result (reallocate_pod scripted false ["node-1"] (start refetch_not_found))
     = Raise KubernetesDeploymentNotFoundException
  /\ result (reallocate_pod scripted true ["node-1"] (start refetch_not_found))
     = Return {| deployment_name := "api"; status_flag := false |}.
Proof. vm_compute. auto. Qed.

(** C10, amended: when the client read made between two replace attempts
    fails with [e0], the affinity mutator stops there and raises what
    [_get_deployment_info] makes of [e0]: no further replace, so at most 60
    were made, and no patch of the replicas. [reallocate_pod] stops there
    too. An [ApiException] other than "Not Found" is raised unchanged and
    reaches the caller of [reallocate_pod]; "Not Found" is raised as
    [KubernetesDeploymentNotFoundException], which reaches the caller
    unless that class is a [KubernetesException], and then the run returns
    [status: False]. *)
Theorem C10_refetch_error_propagates (K : Cluster) (nf : bool)
    (values : list string) (st : St K) (e0 : exn) :
  refetch_error (emitted (_update_pod_affinity K values st)) = Some e0 ->
  exists e',
    read_outcome (inl e0) = Raise e'
    /\ (exists pre b e,
          emitted (_update_pod_affinity K values st)
          = pre ++ [Replace b (Some e); Sleep 1; Read (inl e0)])
    /\ result (_update_pod_affinity K values st) = Raise e'
    /\ (List.length (replace_outcomes (emitted (_update_pod_affinity K values st)))
        <= 60)%nat
    /\ patch_targets (emitted (_update_pod_affinity K values st)) = []
    /\ emitted (reallocate_pod K nf values st)
       = emitted (_update_pod_affinity K values st)
    /\ result (reallocate_pod K nf values st)
       = (if isinstance_KubernetesException nf e'
          then Return {| deployment_name := deploy_name (self st);
                         status_flag := false |}
          else Raise e')
    /\ (forall reason,
          e0 = ApiException reason ->
          (reason =? "Not Found")%string = false ->
          e' = ApiException reason
          /\ result (reallocate_pod K nf values st) = Raise (ApiException reason))
    /\ (e0 = ApiException "Not Found" ->
        e' = KubernetesDeploymentNotFoundException
        /\ result (reallocate_pod K nf values st)
           = (if nf
              then Return {| deployment_name := deploy_name (self st);
                             status_flag := false |}
              else Raise KubernetesDeploymentNotFoundException)).
Proof.
  intros Hre.
  pose proof (update_pod_affinity_handle K values st) as (Hname & _).
  destruct (update_pod_affinity_shape K values st)
    as (rounds & b & _ & _ & Hlen & _ & Hend).
  destruct Hend as [(r & He & Hr)|[(e1 & r1 & e1' & Hl1 & He & Ho1 & Hr)
                                  |(e1 & sx & Hl1 & Hsx & He & Hr)]];
    rewrite He in Hre.
  - rewrite refetch_error_refreshes in Hre. discriminate.
  - rewrite refetch_error_refreshes in Hre. cbn in Hre.
    destruct r1 as [e0'|d]; [|discriminate]. injection Hre as ->.
    exists e1'. split; [exact Ho1|].
    split; [exists (refreshes rounds), b, e1; exact He|].
    split; [exact Hr|].
    assert (Hreal : result (reallocate_pod K nf values st)
                    = (if isinstance_KubernetesException nf e1'
                       then Return {| deployment_name := deploy_name (self st);
                                      status_flag := false |}
                       else Raise e1')
                    /\ emitted (reallocate_pod K nf values st)
                       = emitted (_update_pod_affinity K values st)).
    { unfold reallocate_pod. rewrite reallocate_pod_try_run, escalation_run.
      cbn zeta. rewrite Hr. cbn.
      destruct (isinstance_KubernetesException nf e1'); cbn; [|auto].
      rewrite Hname. auto. }
    destruct Hreal as (Hres & Hem).
    split.
    { rewrite He, replace_outcomes_app, replace_outcomes_refreshes, length_app,
        length_map. cbn. lia. }
    split.
    { rewrite He, patch_targets_app, patch_targets_refreshes. reflexivity. }
    split; [exact Hem|]. split; [exact Hres|]. split.
    + intros reason -> Hnf. rewrite Hres. cbn in Ho1. rewrite Hnf in Ho1.
      injection Ho1 as <-. auto.
    + intros ->. rewrite Hres. cbn in Ho1. injection Ho1 as <-. auto.
  - destruct (set_pod_replica_trace K (num_replicas_before (self st)) sx)
      as (_ & _ & _ & _ & _ & Hno).
    rewrite refetch_error_refreshes, Hno in Hre. discriminate.
Qed.

(** C10 at work: the replace is refused once and the read before the retry
    fails. A server error reaches the caller of [reallocate_pod] either way;
    "Not Found" reaches it as [KubernetesDeploymentNotFoundException], or
    comes back as [status: False] where that class is a
    [KubernetesException]. *)
Lemma C10_refetch_error_propagates_witness :
  result (reallocate_pod scripted false ["node-1"] (start refetch_breaks))
  = Raise (ApiException "Internal Server Error")
  /\ result (reallocate_pod scripted true ["node-1"] (start refetch_breaks))
     = Raise (ApiException "Internal Server Error")
  /\ result (reallocate_pod scripted false ["node-1"] (start refetch_not_found))
     = Raise KubernetesDeploymentNotFoundException
  /\ result (reallocate_pod scripted true ["node-1"] (start refetch_not_found))
     = Return {| deployment_name := "api"; status_flag := false |}.
Proof.
  destruct (C10_refetch_error_propagates scripted false ["node-1"]
              (start refetch_breaks) (ApiException "Internal Server Error")
              eq_refl)
    as (e1 & _ & _ & _ & _ & _ & _ & _ & H1 & _).
  destruct (C10_refetch_error_propagates scripted true ["node-1"]
              (start refetch_breaks) (ApiException "Internal Server Error")
              eq_refl)
    as (e2 & _ & _ & _ & _ & _ & _ & _ & H2 & _).
  destruct (C10_refetch_error_propagates scripted false ["node-1"]
              (start refetch_not_found) (ApiException "Not Found") eq_refl)
    as (e3 & _ & _ & _ & _ & _ & _ & _ & _ & H3).
  destruct (C10_refetch_error_propagates scripted true ["node-1"]
              (start refetch_not_found) (ApiException "Not Found") eq_refl)
    as (e4 & _ & _ & _ & _ & _ & _ & _ & _ & H4).
  split; [|split; [|split]].
  - apply (H1 "Internal Server Error"); reflexivity.
  - apply (H2 "Internal Server Error"); reflexivity.
  - apply (H3 eq_refl).
  - apply (H4 eq_refl).
Defined.

(** ** What reaches the caller of [reallocate_pod] *)

(** The [except] clause (lines 136-137), on the result. *)
Lemma reallocate_pod_result (K : Cluster) (nf : bool) values (st : St K) :
  result (reallocate_pod K nf values st) =
  match result (reallocate_pod_try K values st) with
  | Return r => Return r
  | Raise e =>
      if isinstance_KubernetesException nf e
      then Return {| deployment_name := deploy_name (self st);
                     status_flag := false |}
      else Raise e
  end.
Proof.
  pose proof (reallocate_pod_handle K nf values st) as (Hn & _).
  revert Hn. unfold reallocate_pod.
  destruct (result (reallocate_pod_try K values st)) as [r|e] eqn:R;
    [intros _; exact R|].
  destruct (isinstance_KubernetesException nf e); cbn [result final].
  - intros ->. reflexivity.
  - intros _. exact R.
Qed.

(** ** The replica count recorded at construction *)




(** ** The escalation gate *)

(** The runs of the body of the [try], by what stops or follows the status
    check made after the settle delay. *)
Lemma reallocate_pod_try_cases (K : Cluster) (values : list string) (st : St K) :
  (after_settle (emitted (reallocate_pod_try K values st)) = []
   /\ exists e,
        result (_update_pod_affinity K values st) = Raise e
        /\ result (reallocate_pod_try K values st) = Raise e)
  \/ (result (_update_pod_affinity K values st) = Return tt
      /\ exists r s2,
           same_handle (self st) (self s2)
           /\ ((exists e,
                  status_outcome r = Raise e
                  /\ after_settle (emitted (reallocate_pod_try K values st))
                     = [Read r]
                  /\ result (reallocate_pod_try K values st) = Raise e)
               \/ (shows_clear r = true
                   /\ emitted (reallocate_pod_try K values st)
                      = emitted (_update_pod_affinity K values st)
                        ++ [Sleep 3; Read r] ++ emitted (await_recover K s2)
                   /\ after_settle (emitted (reallocate_pod_try K values st))
                      = Read r :: emitted (await_recover K s2)
                   /\ result (reallocate_pod_try K values st)
                      = result (await_recover K s2))
               \/ (shows_failure r = true
                   /\ exists rest,
                        after_settle (emitted (reallocate_pod_try K values st))
                        = Read r :: emitted (hard_mode K s2) ++ rest))).
Proof.
  destruct (update_pod_affinity_calls K values st) as (_ & _ & Hns & _).
  rewrite reallocate_pod_try_run. cbn zeta.
  destruct (escalation_cases K values st)
    as [(e1 & R1 & Hem & Hr)
       |(R1 & r & s2 & Hs2 & [(e1 & Ho & Hem & Hr)
                             |[(Hc & Hem & Hr & Hfin)|(Hf & Hem & Hr & Hfin)]])];
    rewrite Hr, Hem.
  - left. cbn [emitted result]. split; [apply after_settle_none; exact Hns|].
    exists e1. auto.
  - right. split; [exact R1|]. exists r, s2. split; [exact Hs2|]. left.
    exists e1. cbn [emitted result].
    rewrite (after_settle_app _ [Read r] Hns). auto.
  - right. split; [exact R1|]. exists r, s2. split; [exact Hs2|]. right. left.
    cbn [emitted result]. rewrite Hfin, <- app_assoc.
    cbn [app]. rewrite (after_settle_app _ _ Hns). auto.
  - right. split; [exact R1|]. exists r, s2. split; [exact Hs2|]. right. right.
    split; [exact Hf|].
    destruct (result (hard_mode K s2)); cbn [emitted].
    + eexists. rewrite <- app_assoc. cbn [app].
      rewrite (after_settle_app _ _ Hns). reflexivity.
    + exists []. rewrite app_nil_r. apply (after_settle_app _ _ Hns).
Qed.

Lemma existsb_patch_zero_polling polls :
  existsb is_patch_zero (polling polls) = false.
Proof. induction polls as [|r polls IH]; cbn; auto. Qed.

(** C4: in every run of [reallocate_pod] the replica setter is called with 0
    after the settle delay, the first step of the hard attempt, exactly when
    the status fetched right after the settle delay shows [ReplicaFailure].
    When it does, the status check is followed by the events of the hard
    attempt (replicas to 0, a one-second wait, replicas back to the recorded
    count); when it does not, nothing after the settle delay touches the
    replicas. *)
Theorem C4_escalation_gate (K : Cluster) (nf : bool) (values : list string)
    (st : St K) :
  hard_started (emitted (reallocate_pod K nf values st))
  = failure_after_settle (emitted (reallocate_pod K nf values st))
  /\ (failure_after_settle (emitted (reallocate_pod K nf values st)) = true ->
      exists r s2 rest,
        after_settle (emitted (reallocate_pod K nf values st))
        = Read r :: emitted (hard_mode K s2) ++ rest
        /\ num_replicas_before (self s2) = num_replicas_before (self st))
  /\ (failure_after_settle (emitted (reallocate_pod K nf values st)) = false ->
      patch_targets (after_settle (emitted (reallocate_pod K nf values st))) = []).
Proof.
  destruct (reallocate_pod_emitted K nf values st) as (-> & _).
  unfold hard_started, failure_after_settle.
  destruct (reallocate_pod_try_cases K values st)
    as [(Ha & _)
       |(_ & r & s2 & Hs2 & [(e1 & Ho & Ha & _)
                            |[(Hc & _ & Ha & _)|(Hf & rest & Ha)]])];
    rewrite Ha.
  - cbn. repeat split; auto; discriminate.
  - destruct (shows_Raise r e1 Ho) as (_ & ->). cbn.
    repeat split; auto; discriminate.
  - destruct (await_recover_shape K s2) as (r0 & polls & -> & _).
    assert (Hf : shows_failure r = false).
    { destruct (shows_failure r) eqn:E; [|reflexivity].
      apply shows_failure_not_clear in E. congruence. }
    rewrite Hf. cbn [existsb is_patch_zero orb].
    rewrite existsb_patch_zero_polling.
    repeat split; auto; try discriminate.
    intros _. change (patch_targets (Read r :: Read r0 :: ?t))
                with (patch_targets t).
    apply patch_targets_polling.
  - rewrite Hf. destruct (hard_mode_trace K s2) as ((f & rest0 & Hp) & _).
    split; [rewrite Hp; reflexivity|].
    split; [|discriminate].
    intros _. exists r, s2, rest. destruct Hs2 as (_ & _ & Hs2). auto.
Qed.

(** C4 at work: [ReplicaFailure] shows after the soft attempt and clears
    after the hard one; replicas go to 0 and back to 3. *)
Lemma C4_escalation_gate_witness :
  hard_started (emitted (reallocate_pod scripted false ["node-1"] (start soft_fails)))
  = true
  /\ patch_targets (emitted (reallocate_pod scripted false ["node-1"]
                               (start soft_fails))) = [0; 3]
  /\ (exists r s2 rest,
        after_settle (emitted (reallocate_pod scripted false ["node-1"]
                                 (start soft_fails)))
        = Read r :: emitted (hard_mode scripted s2) ++ rest
        /\ num_replicas_before (self s2) = 3)
  /\ patch_targets
       (after_settle (emitted (reallocate_pod scripted false ["node-1"]
                                 (start calm)))) = [].
Proof.
  destruct (C4_escalation_gate scripted false ["node-1"] (start soft_fails))
    as (_ & H1 & _).
  destruct (C4_escalation_gate scripted false ["node-1"] (start calm))
    as (_ & _ & H2).
  split; [vm_compute; reflexivity|].
  split; [vm_compute; reflexivity|].
  split; [apply H1; vm_compute; reflexivity|].
  apply H2. vm_compute. reflexivity.
Defined.

(** ** The convergence poll *)

(** C5: when the convergence poll is entered and every status it fetches
    shows [ReplicaFailure], it makes 60 turns, each a one-second delay and a
    fetch, after its first fetch, then stops, and [reallocate_pod] returns
    [status: False]. *)
Theorem C5_convergence_timeout (K : Cluster) (nf : bool)
    (values : list string) (st : St K) :
  result (escalation K values st) = Return tt ->
  forallb shows_failure
    (read_responses
       (emitted (await_recover K (final (escalation K values st))))) = true ->
  exists r0 polls,
    List.length polls = 60%nat
    /\ emitted (await_recover K (final (escalation K values st)))
       = Read r0 :: polling polls
    /\ emitted (reallocate_pod K nf values st)
       = emitted (escalation K values st) ++ Read r0 :: polling polls
    /\ delays (Read r0 :: polling polls) = repeat 1 60
    /\ result (reallocate_pod K nf values st)
       = Return {| deployment_name := deploy_name (self st);
                   status_flag := false |}.
Proof.
  intros Hesc Hall.
  destruct (reallocate_pod_emitted K nf values st) as (Hem & _).
  rewrite reallocate_pod_result, Hem, reallocate_pod_try_run. cbn zeta.
  rewrite Hesc. cbn [emitted result].
  destruct (await_recover_shape K (final (escalation K values st)))
    as (r0 & polls & He & _ & _ & Hend).
  rewrite He in Hall |- *.
  change (read_responses (Read r0 :: ?t)) with (r0 :: read_responses t) in Hall.
  rewrite read_responses_polling in Hall.
  destruct Hend as [(pre & r & Hp & _ & Hc & _)
                   |[(pre & r & e1 & Hp & _ & Ho & _)|(Hl & _ & Hr)]].
  - rewrite Hp, forallb_app in Hall. cbn in Hall.
    apply andb_true_iff in Hall. destruct Hall as (_ & Hall).
    rewrite andb_true_r in Hall. apply shows_failure_not_clear in Hall.
    congruence.
  - rewrite Hp, forallb_app in Hall. cbn in Hall.
    apply andb_true_iff in Hall. destruct Hall as (_ & Hall).
    rewrite andb_true_r in Hall. destruct (shows_Raise r e1 Ho). congruence.
  - exists r0, polls. rewrite Hr. cbn [isinstance_KubernetesException].
    change (delays (Read r0 :: ?t)) with (delays t).
    rewrite delays_polling, Hl. auto.
Qed.

(** C5 at work: the soft attempt is accepted, [ReplicaFailure] is absent
    from the status check after it and shows in every status fetched by the
    poll. *)
Lemma C5_convergence_timeout_witness :
  exists r0 polls,
    List.length polls = 60%nat
    /\ emitted (await_recover scripted
                  (final (escalation scripted ["node-1"] (start late_failure))))
       = Read r0 :: polling polls
    /\ emitted (reallocate_pod scripted false ["node-1"] (start late_failure))
       = emitted (escalation scripted ["node-1"] (start late_failure))
         ++ Read r0 :: polling polls
    /\ delays (Read r0 :: polling polls) = repeat 1 60
    /\ result (reallocate_pod scripted false ["node-1"] (start late_failure))
       = Return {| deployment_name := "api"; status_flag := false |}.
Proof.
  apply (C5_convergence_timeout scripted false ["node-1"] (start late_failure));
    vm_compute; reflexivity.
Defined.

(** ** The run without escalation *)

(** C6, as stated, fails: [ReplicaFailure] is absent from the status fetched
    after the soft attempt, shows in every later fetch, and the run returns
    [status: False]. *)
Lemma C6_status_true_counterexample :
  clear_after_settle
    (emitted (reallocate_pod scripted false ["node-1"] (start late_failure)))
  = true
  /\ result (reallocate_pod scripted false ["node-1"] (start late_failure))
     = Return {| deployment_name := "api"; status_flag := false |}.
Proof. vm_compute. auto. Qed.

(** C6, amended: in every run in which the status fetched after the soft
    attempt shows no [ReplicaFailure], the replica setter is never called;
    the run returns [status: True] exactly when it ends on a status fetch of
    the convergence poll that shows no [ReplicaFailure] either. *)
Theorem C6_clear_after_soft (K : Cluster) (nf : bool) (values : list string)
    (st : St K) :
  clear_after_settle (emitted (reallocate_pod K nf values st)) = true ->
  patch_targets (emitted (reallocate_pod K nf values st)) = []
  /\ (result (reallocate_pod K nf values st)
      = Return {| deployment_name := deploy_name (self st);
                  status_flag := true |}
      <-> exists pre r,
            emitted (reallocate_pod K nf values st) = pre ++ [Read r]
            /\ shows_clear r = true).
Proof.
  destruct (reallocate_pod_emitted K nf values st) as (-> & _).
  rewrite reallocate_pod_result. unfold clear_after_settle.
  destruct (update_pod_affinity_calls K values st) as (_ & _ & _ & Hnone).
  destruct (reallocate_pod_try_cases K values st)
    as [(Ha & _)
       |(R1 & r & s2 & Hs2 & [(e1 & Ho & Ha & _)
                             |[(Hc & Hem & Ha & Hr)|(Hf & rest & Ha)]])];
    rewrite Ha; try discriminate.
  - destruct (shows_Raise r e1 Ho) as (-> & _). discriminate.
  - intros _. rewrite Hem, Hr.
    destruct (await_recover_shape K s2) as (r0 & polls & He & _ & _ & Hend).
    rewrite He. split.
    { rewrite !patch_targets_app, (Hnone R1).
      change (patch_targets (Read r0 :: ?t)) with (patch_targets t).
      rewrite patch_targets_polling. reflexivity. }
    destruct Hs2 as (Hn & _).
    assert (Hlast : forall r', (exists t, Read r0 :: polling polls = t ++ [Read r']) ->
                    shows_clear r' = false ->
                    ~ exists pre rr,
                        emitted (_update_pod_affinity K values st)
                        ++ [Sleep 3; Read r] ++ Read r0 :: polling polls
                        = pre ++ [Read rr] /\ shows_clear rr = true).
    { intros r' (t & Ht) Hr' (pre & rr & Hp & Hrr).
      rewrite Ht, !app_assoc in Hp. apply app_inj_tail in Hp.
      destruct Hp as (_ & Hp). injection Hp as <-. congruence. }
    destruct Hend as [(pre & r' & Hp & _ & Hc' & Hres)
                     |[(pre & r' & e1 & Hp & _ & Ho & Hres)|(Hl & Hall & Hres)]];
      rewrite Hres.
    + rewrite Hn. split; [|reflexivity]. intros _.
      destruct (poll_events_last _ _ _ _ Hp) as (t & ->).
      exists (emitted (_update_pod_affinity K values st)
              ++ [Sleep 3; Read r] ++ t), r'.
      rewrite <- !app_assoc. auto.
    + split.
      * destruct (isinstance_KubernetesException nf e1); discriminate.
      * intros H. exfalso. revert H. apply (Hlast r').
        -- apply (poll_events_last _ _ _ _ Hp).
        -- apply (shows_Raise r' e1 Ho).
    + split; [discriminate|].
      intros H. exfalso. revert H.
      destruct (exists_last (l := r0 :: polls) ltac:(discriminate))
        as (pre & r' & Hp).
      apply (Hlast r').
      * apply (poll_events_last _ _ _ _ Hp).
      * rewrite Hp, forallb_app in Hall. cbn in Hall.
        apply andb_true_iff in Hall. destruct Hall as (_ & Hall).
        rewrite andb_true_r in Hall. apply shows_failure_not_clear. exact Hall.
  - intros Hc. apply shows_failure_not_clear in Hf. congruence.
Qed.

(** C6 at work: no error condition ever shows; one replace, no patch, and
    [status: True]. *)
Lemma C6_clear_after_soft_witness :
  patch_targets (emitted (reallocate_pod scripted false ["node-1"] (start calm)))
  = []
  /\ result (reallocate_pod scripted false ["node-1"] (start calm))
     = Return {| deployment_name := "api"; status_flag := true |}.
Proof.
  destruct (C6_clear_after_soft scripted false ["node-1"] (start calm))
    as (H1 & H2); [vm_compute; reflexivity|].
  split; [exact H1|].
  apply H2.
  exists (removelast
            (emitted (reallocate_pod scripted false ["node-1"] (start calm)))),
    (inr (deployment 3 2 (Some healthy))).
  split; vm_compute; reflexivity.
Defined.

(** ** A deployment without conditions *)





(** ** A failed read ends the run *)












(** ** What reaches the caller of [reallocate_pod], in full *)




(** ** Bounds on a whole run *)

Lemma read_responses_attempts n fails last :
  read_responses (attempts (Patch n) fails last) = [].
Proof.
  unfold attempts. induction fails as [|e fails IH]; cbn; [reflexivity|].
  exact IH.
Qed.

Lemma delays_refreshes rounds :
  delays (refreshes rounds) = repeat 1 (List.length rounds).
Proof.
  induction rounds as [|[[b e] d] rounds IH]; cbn; [reflexivity|].
  f_equal. exact IH.
Qed.

Lemma read_responses_refreshes rounds :
  List.length (read_responses (refreshes rounds)) = List.length rounds.
Proof.
  induction rounds as [|[[b e] d] rounds IH]; cbn; [reflexivity|].
  f_equal. exact IH.
Qed.

Lemma replace_outcomes_polling polls : replace_outcomes (polling polls) = [].
Proof.
  induction polls as [|r polls IH]; cbn; [reflexivity|exact IH].
Qed.

Lemma repeat_ones_app (a b : nat) :
  repeat 1 a ++ repeat 1 b = repeat 1 (a + b).
Proof. symmetry. apply repeat_app. Qed.

Lemma total_ones k : fold_right Z.add 0 (repeat 1 k) = Z.of_nat k.
Proof. induction k as [|k IH]; cbn [repeat fold_right]; lia. Qed.

(** How many delays, patches and reads one call of the replica setter can
    make. *)
Lemma set_pod_replica_census (K : Cluster) (n : Z) (st : St K) :
  exists k,
    (k <= 60)%nat
    /\ delays (emitted (_set_pod_replica K n st)) = repeat 1 k
    /\ (List.length (patch_targets (emitted (_set_pod_replica K n st))) <= 61)%nat
    /\ (List.length (read_responses (emitted (_set_pod_replica K n st))) <= 1)%nat.
Proof.
  destruct (set_pod_replica_shape K n st) as (fails & [e|] & Hl & H).
  - destruct H as (-> & _). exists (List.length fails).
    rewrite delays_attempts, patch_targets_attempts, read_responses_attempts,
      repeat_length.
    cbn. repeat split; auto; lia.
  - destruct H as (r & -> & _). exists (List.length fails).
    rewrite delays_app, patch_targets_app, read_responses_app, delays_attempts,
      patch_targets_attempts, read_responses_attempts.
    cbn. rewrite !app_nil_r, repeat_length. repeat split; auto; lia.
Qed.

Lemma update_pod_affinity_census (K : Cluster) values (st : St K) :
  exists k,
    (k <= 120)%nat
    /\ (result (_update_pod_affinity K values st) = Return tt -> (k <= 60)%nat)
    /\ delays (emitted (_update_pod_affinity K values st)) = repeat 1 k
    /\ (List.length (replace_outcomes (emitted (_update_pod_affinity K values st)))
        <= 61)%nat
    /\ (List.length (patch_targets (emitted (_update_pod_affinity K values st)))
        <= 61)%nat
    /\ (List.length (read_responses (emitted (_update_pod_affinity K values st)))
        <= 61)%nat.
Proof.
  destruct (update_pod_affinity_shape K values st)
    as (rounds & b & _ & _ & Hlen & _ & Hend).
  destruct Hend as [(r & He & Hr)|[(e1 & r1 & e1' & Hl1 & He & Ho1 & Hr)
                                  |(e1 & sx & Hl1 & Hsx & He & Hr)]];
    rewrite He, delays_app, replace_outcomes_app, patch_targets_app,
      read_responses_app, delays_refreshes, replace_outcomes_refreshes,
      patch_targets_refreshes, !length_app, length_map,
      read_responses_refreshes.
  - exists (List.length rounds). cbn. rewrite app_nil_r.
    repeat split; auto; lia.
  - exists (List.length rounds + 1)%nat. cbn [delays flat_map app].
    rewrite <- repeat_ones_app. cbn.
    split; [lia|]. split; [rewrite Hr; discriminate|].
    repeat split; auto; lia.
  - destruct (set_pod_replica_census K (num_replicas_before (self st)) sx)
      as (k & Hk & Hd & Hp & Hrd).
    destruct (set_pod_replica_trace K (num_replicas_before (self st)) sx)
      as (_ & _ & _ & Hno & _).
    change (delays (Replace b (Some e1) :: ?t)) with (delays t).
    change (replace_outcomes (Replace b (Some e1) :: ?t))
      with (Some e1 :: replace_outcomes t).
    change (patch_targets (Replace b (Some e1) :: ?t)) with (patch_targets t).
    change (read_responses (Replace b (Some e1) :: ?t)) with (read_responses t).
    rewrite Hd, Hno, repeat_ones_app.
    exists (List.length rounds + k)%nat. cbn [List.length app].
    split; [lia|]. split.
    + rewrite Hr. destruct (result (_set_pod_replica K _ sx)); discriminate.
    + repeat split; auto; lia.
Qed.

Lemma hard_mode_census (K : Cluster) (st : St K) :
  exists k,
    (k <= 121)%nat
    /\ delays (emitted (hard_mode K st)) = repeat 1 k
    /\ (List.length (patch_targets (emitted (hard_mode K st))) <= 122)%nat
    /\ (List.length (read_responses (emitted (hard_mode K st))) <= 2)%nat
    /\ replace_outcomes (emitted (hard_mode K st)) = [].
Proof.
  rewrite hard_mode_run. cbn zeta.
  destruct (set_pod_replica_census K 0 st) as (k1 & Hk1 & Hd1 & Hp1 & Hr1).
  destruct (set_pod_replica_trace K 0 st) as (_ & _ & _ & Hno1 & _).
  destruct (result (_set_pod_replica K 0 st)); cbn [emitted].
  - match goal with |- context [_set_pod_replica K ?n (Build_St K ?o ?w)] =>
      destruct (set_pod_replica_census K n (Build_St K o w))
        as (k2 & Hk2 & Hd2 & Hp2 & Hr2);
      destruct (set_pod_replica_trace K n (Build_St K o w))
        as (_ & _ & _ & Hno2 & _)
    end.
    rewrite delays_app, patch_targets_app, read_responses_app,
      replace_outcomes_app, !length_app.
    change (delays (Sleep 1 :: ?t)) with (1 :: delays t).
    change (patch_targets (Sleep 1 :: ?t)) with (patch_targets t).
    change (read_responses (Sleep 1 :: ?t)) with (read_responses t).
    change (replace_outcomes (Sleep 1 :: ?t)) with (replace_outcomes t).
    rewrite Hd1, Hd2, Hno1, Hno2.
    exists (k1 + S k2)%nat. rewrite <- repeat_ones_app.
    repeat split; auto; lia.
  - exists k1. repeat split; auto; lia.
Qed.

Lemma await_recover_census (K : Cluster) (st : St K) :
  exists k,
    (k <= 60)%nat
    /\ delays (emitted (await_recover K st)) = repeat 1 k
    /\ patch_targets (emitted (await_recover K st)) = []
    /\ (List.length (read_responses (emitted (await_recover K st))) <= 61)%nat
    /\ replace_outcomes (emitted (await_recover K st)) = [].
Proof.
  destruct (await_recover_shape K st) as (r0 & polls & -> & Hl & _).
  exists (List.length polls).
  change (delays (Read r0 :: ?t)) with (delays t).
  change (patch_targets (Read r0 :: ?t)) with (patch_targets t).
  change (read_responses (Read r0 :: ?t)) with (r0 :: read_responses t).
  change (replace_outcomes (Read r0 :: ?t)) with (replace_outcomes t).
  rewrite delays_polling, patch_targets_polling, read_responses_polling,
    replace_outcomes_polling.
  cbn. repeat split; auto; lia.
Qed.

(** The events of the body of the [try]: those of the affinity mutator
    alone when it raises; otherwise those, the settle delay, the status read
    and what follows it, the hard attempt and the convergence poll each
    taking part or not. *)
Lemma reallocate_pod_try_events (K : Cluster) (values : list string) (st : St K) :
  ((exists e, result (_update_pod_affinity K values st) = Raise e)
   /\ emitted (reallocate_pod_try K values st)
      = emitted (_update_pod_affinity K values st))
  \/ (result (_update_pod_affinity K values st) = Return tt
      /\ exists r hard poll,
           emitted (reallocate_pod_try K values st)
           = emitted (_update_pod_affinity K values st)
             ++ Sleep 3 :: Read r :: hard ++ poll
           /\ (hard = [] \/ exists s, hard = emitted (hard_mode K s))
           /\ (poll = [] \/ exists s, poll = emitted (await_recover K s))).
Proof.
  rewrite reallocate_pod_try_run. cbn zeta.
  destruct (escalation_cases K values st)
    as [(e1 & R1 & Hem & Hr)
       |(R1 & r & s2 & Hs2 & [(e1 & Ho & Hem & Hr)
                             |[(Hc & Hem & Hr & Hfin)|(Hf & Hem & Hr & Hfin)]])];
    rewrite Hem.
  - left. rewrite Hr. cbn [emitted]. split; [exists e1; exact R1|reflexivity].
  - right. split; [exact R1|]. exists r, [], []. rewrite Hr. cbn [emitted app].
    split; [reflexivity|]. split; left; reflexivity.
  - right. split; [exact R1|]. rewrite Hr. cbn [emitted].
    exists r, [], (emitted (await_recover K (final (escalation K values st)))).
    rewrite <- app_assoc. cbn [app].
    split; [reflexivity|]. split; [left; reflexivity|right; eexists; reflexivity].
  - right. split; [exact R1|].
    destruct (result (escalation K values st)); cbn [emitted].
    + exists r, (emitted (hard_mode K s2)),
        (emitted (await_recover K (final (escalation K values st)))).
      rewrite <- app_assoc. cbn [app].
      split; [reflexivity|]. split; right; eexists; reflexivity.
    + exists r, (emitted (hard_mode K s2)), []. rewrite app_nil_r.
      split; [reflexivity|]. split; [right; eexists; reflexivity|left; reflexivity].
Qed.

Lemma hard_part_census (K : Cluster) (hard : list Event) :
  hard = [] \/ (exists s, hard = emitted (hard_mode K s)) ->
  exists k,
    (k <= 121)%nat
    /\ delays hard = repeat 1 k
    /\ (List.length (patch_targets hard) <= 122)%nat
    /\ (List.length (read_responses hard) <= 2)%nat
    /\ replace_outcomes hard = []
    /\ replace_bodies hard = [].
Proof.
  intros [->|(s & ->)].
  - exists 0%nat. cbn. repeat split; auto; lia.
  - destruct (hard_mode_census K s) as (k & Hk & Hd & Hp & Hr & Ho).
    destruct (hard_mode_trace K s) as (_ & _ & Hb).
    exists k. auto 10.
Qed.

Lemma poll_part_census (K : Cluster) (poll : list Event) :
  poll = [] \/ (exists s, poll = emitted (await_recover K s)) ->
  exists k,
    (k <= 60)%nat
    /\ delays poll = repeat 1 k
    /\ patch_targets poll = []
    /\ (List.length (read_responses poll) <= 61)%nat
    /\ replace_outcomes poll = []
    /\ replace_bodies poll = [].
Proof.
  intros [->|(s & ->)].
  - exists 0%nat. cbn. repeat split; auto; lia.
  - destruct (await_recover_census K s) as (k & Hk & Hd & Hp & Hr & Ho).
    exists k. repeat split; auto.
    destruct (await_recover_shape K s) as (r0 & polls & -> & _).
    apply replace_bodies_polling.
Qed.

(** X1: the delays of any run of [reallocate_pod] are one-second delays but
    for at most one three-second delay, made only once the affinity mutator
    has returned, and add up to at most 244 seconds. *)
Theorem X1_sleep_budget (K : Cluster) (nf : bool) (values : list string)
    (st : St K) :
  ((exists a,
      (a <= 120)%nat
      /\ delays (emitted (reallocate_pod K nf values st)) = repeat 1 a)
   \/ (exists a b,
         (a <= 60)%nat /\ (b <= 181)%nat
         /\ result (_update_pod_affinity K values st) = Return tt
         /\ delays (emitted (reallocate_pod K nf values st))
            = repeat 1 a ++ 3 :: repeat 1 b))
  /\ total_delay (emitted (reallocate_pod K nf values st)) <= 244.
Proof.
  destruct (reallocate_pod_emitted K nf values st) as (-> & _).
  unfold total_delay.
  destruct (update_pod_affinity_census K values st)
    as (a & Ha & Ha' & Hd & _).
  destruct (reallocate_pod_try_events K values st)
    as [(_ & ->)|(R1 & r & hard & poll & -> & Hh & Hp)].
  - rewrite Hd, total_ones. split; [|lia]. left. exists a. auto.
  - destruct (hard_part_census K hard Hh) as (kh & Hkh & Hdh & _).
    destruct (poll_part_census K poll Hp) as (kp & Hkp & Hdp & _).
    rewrite delays_app.
    change (delays (Sleep 3 :: Read r :: ?t)) with (3 :: delays t).
    rewrite delays_app, Hd, Hdh, Hdp, repeat_ones_app.
    specialize (Ha' R1). split.
    + right. exists a, (kh + kp)%nat. repeat split; auto; lia.
    + rewrite fold_right_app. cbn [fold_right]. rewrite total_ones.
      assert (Hs : forall z k, fold_right Z.add z (repeat 1 k) = Z.of_nat k + z).
      { intros z k. induction k as [|k IH]; cbn [repeat fold_right]; lia. }
      rewrite Hs. lia.
Qed.

(** X2: a run of [reallocate_pod] makes at most 61 replace calls, 122 patch
    calls and 125 reads. *)
Theorem X2_call_budget (K : Cluster) (nf : bool) (values : list string)
    (st : St K) :
  (List.length (replace_outcomes (emitted (reallocate_pod K nf values st)))
   <= 61)%nat
  /\ (List.length (patch_targets (emitted (reallocate_pod K nf values st)))
      <= 122)%nat
  /\ (List.length (read_responses (emitted (reallocate_pod K nf values st)))
      <= 125)%nat.
Proof.
  destruct (reallocate_pod_emitted K nf values st) as (-> & _).
  destruct (update_pod_affinity_census K values st)
    as (a & _ & _ & _ & Hrep & Hpat & Hrd).
  destruct (update_pod_affinity_calls K values st) as (_ & _ & _ & Hnone).
  destruct (reallocate_pod_try_events K values st)
    as [(_ & ->)|(R1 & r & hard & poll & -> & Hh & Hp)].
  - repeat split; lia.
  - destruct (hard_part_census K hard Hh) as (kh & _ & _ & Hph & Hrh & Hoh & _).
    destruct (poll_part_census K poll Hp) as (kp & _ & _ & Hpp & Hrp & Hop & _).
    rewrite replace_outcomes_app, patch_targets_app, read_responses_app.
    change (replace_outcomes (Sleep 3 :: Read r :: ?t)) with (replace_outcomes t).
    change (patch_targets (Sleep 3 :: Read r :: ?t)) with (patch_targets t).
    change (read_responses (Sleep 3 :: Read r :: ?t))
      with (r :: read_responses t).
    rewrite replace_outcomes_app, patch_targets_app, read_responses_app,
      Hoh, Hop, Hpp, (Hnone R1).
    cbn [app List.length]. rewrite !app_nil_r, !length_app.
    cbn [List.length]. rewrite length_app. repeat split; lia.
Qed.

(** X3: [reallocate_pod] replaces the deployment in its soft attempt only:
    the objects it submits in a whole run are those submitted by the
    affinity mutator, at least one, and each carries the affinity built
    from the avoid-list. *)
Theorem X3_replace_only_in_soft_attempt (K : Cluster) (nf : bool)
    (values : list string) (st : St K) :
  replace_bodies (emitted (reallocate_pod K nf values st))
  = replace_bodies (emitted (_update_pod_affinity K values st))
  /\ replace_bodies (emitted (reallocate_pod K nf values st)) <> []
  /\ Forall (fun body => affinity_of body = Some (build_affinity values))
       (replace_bodies (emitted (reallocate_pod K nf values st))).
Proof.
  assert (H : replace_bodies (emitted (reallocate_pod K nf values st))
              = replace_bodies (emitted (_update_pod_affinity K values st))).
  { destruct (reallocate_pod_emitted K nf values st) as (-> & _).
    destruct (reallocate_pod_try_events K values st)
      as [(_ & ->)|(R1 & r & hard & poll & -> & Hh & Hp)]; [reflexivity|].
    destruct (hard_part_census K hard Hh) as (kh & _ & _ & _ & _ & _ & Hbh).
    destruct (poll_part_census K poll Hp) as (kp & _ & _ & _ & _ & _ & Hbp).
    rewrite replace_bodies_app.
    change (replace_bodies (Sleep 3 :: Read r :: ?t)) with (replace_bodies t).
    rewrite replace_bodies_app, Hbh, Hbp. cbn. apply app_nil_r. }
  rewrite H.
  destruct (update_pod_affinity_calls K values st)
    as ((rounds & b & -> & Hb & Hall) & _).
  split; [reflexivity|]. split.
  - destruct (map _ rounds); discriminate.
  - apply Forall_app. split.
    + apply Forall_map. exact Hall.
    + constructor; [exact Hb|constructor].
Qed.

(** ** Retrying with a fresh snapshot *)

Lemma refetched_attempts n fails last tail :
  refetched (attempts (Patch n) fails last ++ tail) = refetched tail.
Proof.
  unfold attempts. induction fails as [|e fails IH]; cbn; [reflexivity|].
  destruct fails; cbn in *; exact IH.
Qed.

Lemma refetched_set_pod_replica (K : Cluster) (n : Z) (st : St K) :
  refetched (emitted (_set_pod_replica K n st)) = [].
Proof.
  destruct (set_pod_replica_shape K n st) as (fails & [e|] & _ & H).
  - destruct H as (-> & _).
    rewrite <- (app_nil_r (attempts _ _ _)). apply refetched_attempts.
  - destruct H as (r & -> & _). apply refetched_attempts.
Qed.

Lemma refetched_refreshes rounds b f tail :
  refetched (refreshes rounds ++ Replace b f :: tail)
  = map snd rounds ++ refetched tail.
Proof.
  induction rounds as [|[[b' e] d] rounds IH]; cbn; [reflexivity|].
  f_equal. exact IH.
Qed.

(** The objects the affinity loop submits: the cached snapshot first, then
    each object read before a retry, all with the affinity set. *)
Lemma update_affinity_loop_chain (K : Cluster) (a : V1Affinity) :
  forall (k tries : nat) (st : St K),
    (tries + k = 60)%nat ->
    replace_bodies (emitted (update_affinity_loop K a tries st))
    = map (set_affinity a)
        (resource (self st)
         :: refetched (emitted (update_affinity_loop K a tries st))).
Proof.
  induction k as [|k IH]; intros tries st Hk;
    rewrite update_affinity_loop_step; cbn zeta;
    destruct (replace_namespaced_deployment K _ _ _ _) as [w [e|]];
    try reflexivity.
  - destruct (le_lt_dec 60 tries); [|lia]. cbn [emitted].
    destruct (set_pod_replica_trace K (num_replicas_before (self st))
                (Build_St K (with_resource (set_affinity a (resource (self st)))
                               (self st)) w))
      as (_ & _ & Hb & _).
    change (replace_bodies (Replace ?b ?f :: ?t)) with (b :: replace_bodies t).
    change (refetched (Replace ?b ?f :: ?t)) with (refetched t).
    rewrite Hb, refetched_set_pod_replica. reflexivity.
  - destruct (le_lt_dec 60 tries); [lia|].
    destruct (read_namespaced_deployment K _ _ _) as [w' r'].
    destruct (read_outcome r') as [updated|e'] eqn:Ho.
    + apply read_outcome_Return in Ho. subst r'. cbn zeta. cbn [emitted].
      change (replace_bodies (Replace ?b ?f :: Sleep 1 :: Read ?r :: ?t))
        with (b :: replace_bodies t).
      change (refetched (Replace ?b ?f :: Sleep 1 :: Read (inr updated) :: ?t))
        with (updated :: refetched t).
      rewrite IH by lia. reflexivity.
    + cbn [emitted]. destruct r' as [e0|d]; [reflexivity|].
      cbn in Ho. discriminate.
Qed.

(** X4: the affinity mutator submits its cached snapshot with the affinity
    set and, at every retry, the object it has just read again with the
    affinity set; setting the affinity changes nothing else of an object. *)
Theorem X4_retry_submits_fresh_snapshot (K : Cluster) (values : list string)
    (st : St K) :
  replace_bodies (emitted (_update_pod_affinity K values st))
  = map (set_affinity (build_affinity values))
      (resource (self st)
       :: refetched (emitted (_update_pod_affinity K values st)))
  /\ (forall a d,
        metadata (set_affinity a d) = metadata d
        /\ replicas (spec (set_affinity a d)) = replicas (spec d)
        /\ status (set_affinity a d) = status d
        /\ affinity_of (set_affinity a d) = Some a).
Proof.
  split; [|intros a d; repeat split].
  pose proof (update_affinity_loop_chain K (build_affinity values) 60 0 st
                eq_refl) as Hchain.
  destruct (update_affinity_loop_shape K (build_affinity values) 60 0 st eq_refl)
    as (rounds & b & _ & _ & _ & _ & Hend).
  unfold _update_pod_affinity.
  destruct Hend as [(He & Hr)|[(e1 & r1 & e1' & _ & _ & _ & Hr)
                              |(e1 & sx & _ & _ & _ & Hr)]].
  - rewrite (bind_Return _ _ _ _ _ Hr). cbn [emitted].
    destruct (get_deployment_info_run K
                (final (update_affinity_loop K (build_affinity values) 0 st)))
      as (w & r & _ & Hi).
    match goal with
    | |- context [emitted (bind K ?m ?k ?s)] =>
        assert (Ho : emitted (bind K m k s) = [Read r])
          by (unfold bind, update_self; rewrite Hi; cbn;
              destruct (read_outcome r); reflexivity);
        rewrite Ho
    end.
    rewrite He in Hchain |- *.
    rewrite replace_bodies_app, Hchain, <- app_assoc. cbn [app].
    rewrite !refetched_refreshes. cbn. rewrite app_nil_r. reflexivity.
  - rewrite (bind_Raise _ _ _ _ _ Hr). cbn [emitted]. exact Hchain.
  - assert (Hx : exists e', result (update_affinity_loop K (build_affinity values) 0 st)
                            = Raise e').
    { rewrite Hr. destruct (result (_set_pod_replica K _ sx)); eauto. }
    destruct Hx as (e' & Hx).
    rewrite (bind_Raise _ _ _ _ _ Hx). cbn [emitted]. exact Hchain.
Qed.

(** ** The snapshot kept by the replica setter *)

(** X5: when the replica setter raises, the instance is as it was; when it
    returns, its last two calls are the accepted patch and a read, and the
    instance holds the object read and its generation. *)
Theorem X5_set_pod_replica_snapshot (K : Cluster) (n : Z) (st : St K) :
  (forall e,
     result (_set_pod_replica K n st) = Raise e ->
     self (final (_set_pod_replica K n st)) = self st)
  /\ (result (_set_pod_replica K n st) = Return tt ->
      exists pre d,
        emitted (_set_pod_replica K n st)
        = pre ++ [Patch n None; Read (inr d)]
        /\ resource (self (final (_set_pod_replica K n st))) = d
        /\ current_version (self (final (_set_pod_replica K n st)))
           = generation (metadata d)
        /\ same_handle (self st) (self (final (_set_pod_replica K n st)))).
Proof.
  pose proof (set_pod_replica_handle K n st) as Hh.
  destruct (set_pod_replica_shape K n st) as (fails & [e|] & _ & H).
  - destruct H as (_ & _ & Hr & Hs). rewrite Hr. split; [auto|discriminate].
  - destruct H as (r & He & Hr & Hs). rewrite Hr. split.
    + intros e He'. rewrite Hs.
      destruct (read_outcome r); [discriminate|reflexivity].
    + intros Hret. destruct (read_outcome r) as [d|e] eqn:Ho; [|discriminate].
      apply read_outcome_Return in Ho. subst r.
      exists (flat_map (fun e => [Patch n (Some e); Sleep 1]) fails), d.
      rewrite He, Hs. unfold attempts. rewrite <- app_assoc.
      repeat split; apply Hh.
Qed.

(** X5 at work: a patch accepted at once, and the deployment read after it. *)
Lemma X5_set_pod_replica_snapshot_witness :
  exists pre d,
    emitted (_set_pod_replica scripted 0 (start calm))
    = pre ++ [Patch 0 None; Read (inr d)]
    /\ resource (self (final (_set_pod_replica scripted 0 (start calm)))) = d
    /\ current_version (self (final (_set_pod_replica scripted 0 (start calm))))
       = generation (metadata d)
    /\ same_handle (self (start calm))
         (self (final (_set_pod_replica scripted 0 (start calm)))).
Proof.
  apply (X5_set_pod_replica_snapshot scripted 0 (start calm)).
  vm_compute. reflexivity.
Defined.

(** ** The patches the cluster accepted *)

Lemma accepted_patches_app t1 t2 :
  accepted_patches (t1 ++ t2) = accepted_patches t1 ++ accepted_patches t2.
Proof. apply flat_map_app. Qed.

Lemma accepted_patches_attempts n fails last :
  accepted_patches (attempts (Patch n) fails last)
  = if failed last then [] else [n].
Proof.
  unfold attempts. induction fails as [|e fails IH]; cbn.
  - destruct last; reflexivity.
  - exact IH.
Qed.

Lemma accepted_patches_refreshes rounds :
  accepted_patches (refreshes rounds) = [].
Proof.
  induction rounds as [|[[b e] d] rounds IH]; cbn; [reflexivity|exact IH].
Qed.

Lemma accepted_patches_polling polls : accepted_patches (polling polls) = [].
Proof.
  induction polls as [|r polls IH]; cbn; [reflexivity|exact IH].
Qed.

Lemma set_pod_replica_accepted (K : Cluster) (n : Z) (st : St K) :
  (result (_set_pod_replica K n st) = Return tt ->
   accepted_patches (emitted (_set_pod_replica K n st)) = [n])
  /\ (accepted_patches (emitted (_set_pod_replica K n st)) = []
      \/ accepted_patches (emitted (_set_pod_replica K n st)) = [n]).
Proof.
  destruct (set_pod_replica_shape K n st) as (fails & [e|] & _ & H).
  - destruct H as (-> & _ & -> & _). rewrite accepted_patches_attempts. cbn.
    split; [discriminate|auto].
  - destruct H as (r & -> & _).
    rewrite accepted_patches_app, accepted_patches_attempts. cbn. auto.
Qed.

Lemma hard_mode_accepted (K : Cluster) (st : St K) :
  (result (hard_mode K st) = Return tt ->
   accepted_patches (emitted (hard_mode K st))
   = [0; num_replicas_before (self st)])
  /\ (accepted_patches (emitted (hard_mode K st)) = []
      \/ accepted_patches (emitted (hard_mode K st)) = [0]
      \/ accepted_patches (emitted (hard_mode K st))
         = [0; num_replicas_before (self st)]).
Proof.
  rewrite hard_mode_run. cbn zeta.
  destruct (set_pod_replica_accepted K 0 st) as (H1 & H1').
  pose proof (set_pod_replica_handle K 0 st) as (_ & _ & Hn).
  destruct (result (_set_pod_replica K 0 st)) as [[]|e]; cbn [emitted result].
  - match goal with |- context [_set_pod_replica K ?n (Build_St K ?o ?w)] =>
      destruct (set_pod_replica_accepted K n (Build_St K o w)) as (H2 & H2')
    end.
    rewrite accepted_patches_app, (H1 eq_refl).
    change (accepted_patches (Sleep 1 :: ?t)) with (accepted_patches t).
    rewrite Hn in *. split.
    + intros Hr. rewrite (H2 Hr). reflexivity.
    + destruct H2' as [->| ->]; cbn; auto.
  - split; [discriminate|]. destruct H1' as [->| ->]; auto.
Qed.

Lemma update_pod_affinity_accepted (K : Cluster) values (st : St K) :
  (result (_update_pod_affinity K values st) = Return tt ->
   accepted_patches (emitted (_update_pod_affinity K values st)) = [])
  /\ (accepted_patches (emitted (_update_pod_affinity K values st)) = []
      \/ accepted_patches (emitted (_update_pod_affinity K values st))
         = [num_replicas_before (self st)]).
Proof.
  destruct (update_pod_affinity_shape K values st)
    as (rounds & b & _ & _ & _ & _ & Hend).
  destruct Hend as [(r & He & Hr)|[(e1 & r1 & e1' & Hl1 & He & Ho1 & Hr)
                                  |(e1 & sx & Hl1 & Hsx & He & Hr)]];
    rewrite He, accepted_patches_app, accepted_patches_refreshes.
  - cbn. auto.
  - cbn. auto.
  - destruct (set_pod_replica_accepted K (num_replicas_before (self st)) sx)
      as (_ & H).
    change (accepted_patches (Replace b (Some e1) :: ?t))
      with (accepted_patches t).
    cbn [app]. split; [|exact H].
    rewrite Hr. destruct (result (_set_pod_replica K _ sx)); discriminate.
Qed.

(** X6: the patches the cluster accepts in a run of [reallocate_pod] are
    none, or the rollback to the recorded count, or the one to 0, or the one
    to 0 followed by the one back to the recorded count; a run that returns
    [status: True] had none accepted or both of the hard attempt, never the
    patch to 0 alone. *)
Theorem X6_accepted_patches (K : Cluster) (nf : bool) (values : list string)
    (st : St K) :
  (accepted_patches (emitted (reallocate_pod K nf values st)) = []
   \/ accepted_patches (emitted (reallocate_pod K nf values st))
      = [num_replicas_before (self st)]
   \/ accepted_patches (emitted (reallocate_pod K nf values st)) = [0]
   \/ accepted_patches (emitted (reallocate_pod K nf values st))
      = [0; num_replicas_before (self st)])
  /\ (result (reallocate_pod K nf values st)
      = Return {| deployment_name := deploy_name (self st);
                  status_flag := true |} ->
      accepted_patches (emitted (reallocate_pod K nf values st)) = []
      \/ accepted_patches (emitted (reallocate_pod K nf values st))
         = [0; num_replicas_before (self st)]).
Proof.
  destruct (reallocate_pod_emitted K nf values st) as (-> & _).
  rewrite reallocate_pod_result, reallocate_pod_try_run. cbn zeta.
  destruct (update_pod_affinity_accepted K values st) as (HA & HA').
  assert (Hpoll : forall s, accepted_patches (emitted (await_recover K s)) = []).
  { intros s. destruct (await_recover_shape K s) as (r0 & polls & -> & _).
    apply accepted_patches_polling. }
  destruct (escalation_cases K values st)
    as [(e1 & R1 & Hem & Hr)
       |(R1 & r & s2 & Hs2 & [(e1 & Ho & Hem & Hr)
                             |[(Hc & Hem & Hr & Hfin)|(Hf & Hem & Hr & Hfin)]])];
    rewrite Hr, ?Hem; cbn [emitted result].
  - split.
    + destruct HA' as [->| ->]; auto.
    + destruct (isinstance_KubernetesException nf e1); discriminate.
  - rewrite accepted_patches_app, (HA R1). cbn. split; [auto|].
    destruct (isinstance_KubernetesException nf e1); discriminate.
  - rewrite !accepted_patches_app, (HA R1), Hpoll. cbn. auto.
  - destruct (hard_mode_accepted K s2) as (HH & HH').
    destruct Hs2 as (_ & _ & Hn). rewrite Hn in *.
    destruct (result (hard_mode K s2)) as [[]|e]; cbn [emitted result].
    + rewrite !accepted_patches_app, (HA R1), Hpoll.
      change (accepted_patches (Sleep 3 :: Read r :: ?t))
        with (accepted_patches t).
      rewrite (HH eq_refl). cbn. auto.
    + rewrite accepted_patches_app, (HA R1).
      change (accepted_patches (Sleep 3 :: Read r :: ?t))
        with (accepted_patches t).
      cbn [app]. split.
      * destruct HH' as [->|[->| ->]]; auto.
      * destruct (isinstance_KubernetesException nf e); discriminate.
Qed.

(** X6 at work: no error condition, nothing patched; [ReplicaFailure] after
    the soft attempt, replicas to 0 and back to 3. *)
Lemma X6_accepted_patches_witness :
  (accepted_patches
     (emitted (reallocate_pod scripted false ["node-1"] (start calm))) = []
   \/ accepted_patches
        (emitted (reallocate_pod scripted false ["node-1"] (start calm)))
      = [0; 3])
  /\ accepted_patches
       (emitted (reallocate_pod scripted false ["node-1"] (start bumpy)))
     = [0; 3].
Proof.
  split.
  - apply (X6_accepted_patches scripted false ["node-1"] (start calm)).
    vm_compute. reflexivity.
  - vm_compute. reflexivity.
Defined.

(** ** What a successful run ends on *)

(** The convergence loop, when it returns: it made no turn, or it ended on a
    read without [ReplicaFailure] whose object the instance now holds. *)
Lemma await_loop_final (K : Cluster) :
  forall (k tries : nat) (status_list : list string) (st : St K),
    (tries + k = 60)%nat ->
    result (await_loop K status_list tries st) = Return tt ->
    (emitted (await_loop K status_list tries st) = []
     /\ final (await_loop K status_list tries st) = st
     /\ py_in KUBE_ERROR_TYPE status_list = false)
    \/ (exists pre d,
          emitted (await_loop K status_list tries st) = pre ++ [Read (inr d)]
          /\ resource (self (final (await_loop K status_list tries st))) = d
          /\ shows_clear (inr d) = true).
Proof.
  induction k as [|k IH]; intros tries sl st Hk; rewrite await_loop_step;
    destruct (py_in KUBE_ERROR_TYPE sl) eqn:Hin;
    try solve [intros _; left; auto].
  - destruct (le_lt_dec 60 tries); [cbn [result]; discriminate|lia].
  - destruct (le_lt_dec 60 tries); [lia|]. cbn zeta.
    match goal with |- context [_get_deployment_status K ?s] =>
      destruct (get_deployment_status_run K s) as (w & r & _ & He & Hr & Hf)
    end.
    rewrite Hr, He, Hf.
    destruct (status_outcome r) as [sl'|e] eqn:Ho; [|discriminate].
    cbn [result emitted final]. intros Hret. right.
    assert (Hrd : exists d, r = inr d /\ read_outcome r = Return d).
    { unfold status_outcome in Ho.
      destruct (read_outcome r) as [d|] eqn:Hro; [|discriminate].
      exists d. split; [apply read_outcome_Return; exact Hro|reflexivity]. }
    destruct Hrd as (d & -> & Hro). rewrite Hro in *.
    destruct (shows_clear_Return _ _ Ho) as (Hc & _).
    match goal with |- context [await_loop K sl' (S tries) ?s] =>
      destruct (IH (S tries) sl' s ltac:(lia) Hret)
        as [(Hem & Hfin & Hin')|(pre & d' & Hem & Hres & Hc')]
    end.
    + rewrite Hem, Hfin. exists [Sleep 1], d. cbn.
      split; [reflexivity|]. split; [reflexivity|].
      rewrite Hc, Hin'. reflexivity.
    + rewrite Hem. exists (Sleep 1 :: Read (inr d) :: pre), d'. auto.
Qed.

(** X8: a run of [reallocate_pod] that returns [status: True] ended on a
    status read that succeeded and shows no [ReplicaFailure], and the
    instance is left holding the object of that read. *)
Theorem X8_success_ends_on_clear_status (K : Cluster) (nf : bool)
    (values : list string) (st : St K) (r : Result) :
  result (reallocate_pod K nf values st) = Return r ->
  status_flag r = true ->
  exists pre d,
    emitted (reallocate_pod K nf values st) = pre ++ [Read (inr d)]
    /\ shows_clear (inr d) = true
    /\ resource (self (final (reallocate_pod K nf values st))) = d.
Proof.
  destruct (reallocate_pod_emitted K nf values st) as (-> & ->).
  rewrite reallocate_pod_result, reallocate_pod_try_run. cbn zeta.
  destruct (result (escalation K values st)) as [[]|e]; cbn [result emitted final].
  - set (s := final (escalation K values st)).
    unfold await_recover.
    destruct (get_deployment_status_run K s) as (w & r0 & _ & He & Hr & Hf).
    destruct (status_outcome r0) as [sl|e] eqn:Ho.
    + rewrite (bind_Return _ _ _ _ _ Hr). cbn [result emitted final].
      assert (Hrd : exists d, r0 = inr d /\ read_outcome r0 = Return d).
      { unfold status_outcome in Ho.
        destruct (read_outcome r0) as [d|] eqn:Hro; [|discriminate].
        exists d. split; [apply read_outcome_Return; exact Hro|reflexivity]. }
      destruct Hrd as (d0 & -> & Hro). rewrite Hro in Hf.
      destruct (shows_clear_Return _ _ Ho) as (Hc & _).
      pose proof (await_loop_final K 60 0 sl (final (_get_deployment_status K s))
                    eq_refl) as Hloop.
      destruct (result (await_loop K sl 0 (final (_get_deployment_status K s))))
        as [[]|e] eqn:Rl.
      * rewrite (bind_Return _ _ _ _ _ Rl). unfold bind, get_self, ret.
        cbn [result emitted final]. intros _ _.
        destruct (Hloop eq_refl)
          as [(Hem & Hfin & Hin')|(pre & d' & Hem & Hres & Hc')].
        -- rewrite Hem, Hfin, He, Hf. exists (emitted (escalation K values st)), d0.
           cbn. rewrite ?app_nil_r. split; [reflexivity|].
           split; [|reflexivity]. rewrite Hc, Hin'. reflexivity.
        -- rewrite Hem, He. exists (emitted (escalation K values st) ++ Read (inr d0) :: pre), d'.
           rewrite ?app_nil_r, <- ?app_assoc. cbn. rewrite ?app_nil_r. auto.
      * rewrite (bind_Raise _ _ _ _ _ Rl). cbn [result].
        destruct (isinstance_KubernetesException nf e); [|discriminate].
        intros H Hflag. injection H as <-. discriminate.
    + rewrite (bind_Raise _ _ _ _ _ Hr). cbn [result].
      destruct (isinstance_KubernetesException nf e); [|discriminate].
      intros H Hflag. injection H as <-. discriminate.
  - destruct (isinstance_KubernetesException nf e); [|discriminate].
    intros H Hflag. injection H as <-. discriminate.
Qed.

(** X8 at work: no error condition ever shows. *)
Lemma X8_success_ends_on_clear_status_witness :
  exists pre d,
    emitted (reallocate_pod scripted false ["node-1"] (start calm))
    = pre ++ [Read (inr d)]
    /\ shows_clear (inr d) = true
    /\ resource (self (final (reallocate_pod scripted false ["node-1"]
                                 (start calm)))) = d.
Proof.
  apply (X8_success_ends_on_clear_status scripted false ["node-1"] (start calm)
           {| deployment_name := "api"; status_flag := true |});
    vm_compute; reflexivity.
Defined.
